(** * MusicTransformer: the training driver and the MAESTRO preprocessing

    A shallow embedding of [main] of [train.py] and of [prep_maestro_midi]
    of [preprocess_midi.py], and the properties of the training loop that
    follow from it: epoch numbering and resumption, the order of the passes
    of an epoch, best-metric tracking, periodic weight snapshots, the results
    log and the best-summary file.

    Python integers are [Z]; Python floats are the binary64 numbers of
    [PrimFloat], compared with the IEEE comparisons the interpreter uses.
    The output folder is a record with one field per file [main] touches.
    The model, the optimizer and the data loaders are opaque to [main]: what
    [eval_model] and [get_lr] return in a loop iteration is read from an
    environment indexed by the loop variable, and a saved [state_dict] is
    named by the iteration it was taken in.  Calls into torch, argparse and
    the packages [model], [dataset], [utilities] are taken to return
    normally; the banner prints of the loop are left out, the two [ERROR]
    prints are kept. *)

From Stdlib Require Import ZArith List String Ascii Bool Lia Floats Reals.
From Stdlib Require Import DecimalString.
From Stdlib Require DecimalZ.
Import ListNotations.

Local Open Scope string_scope.
Local Open Scope list_scope.
Local Open Scope Z_scope.

(** ** Python floats *)

Module PyFloat.

(** Python's [a > b] and [a < b] on floats. *)
Definition gt (a b : float) : bool := PrimFloat.ltb b a.
Definition lt (a b : float) : bool := PrimFloat.ltb a b.
(** Python's [a == b] on floats. *)
Definition eq (a b : float) : bool := PrimFloat.eqb a b.

(** [float("inf")] *)
Definition inf : float := infinity.

End PyFloat.

(** ** Data *)

(** The fields of the argparse namespace that [main] branches on or
    computes with.  The remaining ones ([input_dir], [batch_size],
    [n_layers], [ce_smoothing], [print_modulus], ...) are only handed to
    the collaborators. *)
Record Args := {
  force_cpu        : bool;
  no_tensorboard   : bool;
  continue_weights : option string;
  continue_epoch   : option Z;
  lr               : option float;
  epochs           : Z;
  weight_modulus   : Z;
  d_model          : Z
}.

(** One cell of a row given to [csv.writer.writerow], or a printed value. *)
Inductive Field :=
| FStr (s : string)
| FInt (z : Z)
| FFloat (f : float).

Definition CsvRecord := list Field.

(** A pickled [model.state_dict()], named by the value of the loop variable
    [epoch] at the moment [torch.save] was called. *)
Record Weights := { taken_at : Z }.

(** The constructor arguments of [LrStepTracker(model_dim, warmup_steps,
    init_steps)]. *)
Record LrStepTracker := {
  model_dim    : Z;
  warmup_steps : Z;
  init_steps   : Z
}.

(** The files and folders under [args.output_dir]. *)
Record Files := {
  output_dir      : bool;                          (* the folder exists *)
  params_file     : option Args;                   (* model_params.txt *)
  weights_folder  : bool;
  results_folder  : bool;
  tensorboard_dir : bool;
  results_file    : option (list CsvRecord);       (* results/results.csv *)
  best_loss_file  : option Weights;                (* results/best_loss_weights.pickle *)
  best_acc_file   : option Weights;                (* results/best_acc_weights.pickle *)
  best_text       : option (list (string * Field)); (* results/best_epochs.txt *)
  epoch_weights   : list (string * Weights)        (* weights/<name>, latest write first *)
}.

Inductive Loader := TrainLoader | TestLoader.

(** What [main] does to the outside world, in program order. *)
Inductive Event :=
| Mkdir (folder : string)
| WriteModelParams
| OpenSummaryWriter
| CreateDatasets
| BuildModel
| PrintError (msg : string)
| LoadStateDict (path : string)
| MakeOptimizer (lr0 : float) (stepper : option LrStepTracker)
| WriteCsvHeader
| TrainEpoch (n : Z)
| EvalModel (l : Loader)
| SaveBestAcc (w : Weights)
| SaveBestLoss (w : Weights)
| WriteBestText (lines : list (string * Field))
| AddScalars (global_step : Z)
| SaveEpochWeights (name : string) (w : Weights)
| AppendRow (row : CsvRecord)
| FlushSummary.

(** The best-tracking variables of [main]. *)
Record Best := {
  best_eval_acc        : float;
  best_eval_acc_epoch  : Z;
  best_eval_loss       : float;
  best_eval_loss_epoch : Z
}.

Record State := {
  files      : Files;
  trace      : list Event;
  best       : Best;
  lr_stepper : option LrStepTracker
}.

(** What is not in [train.py]: the constants of [utilities.constants] that
    [main] uses, the number of batches of the train loader, and the values
    the collaborators return in the iteration whose loop variable is
    [epoch]. *)
Record Env := {
  LR_DEFAULT_START        : float;
  SCHEDULER_WARMUP_STEPS  : Z;
  PREPEND_ZEROS_WIDTH     : Z;
  len_train_loader        : Z;
  eval_train              : Z -> float * float;   (* eval_model(model, train_loader, ..) *)
  eval_test               : Z -> float * float;   (* eval_model(model, test_loader, ..) *)
  get_lr                  : Z -> float            (* get_lr(opt) *)
}.

Inductive Exn :=
| UnboundLocalError (name : string)
| ZeroDivisionError.

(** How a piece of [main] ends: it falls through with a value, it executes
    [return], or it raises. *)
Inductive Outcome (A : Type) :=
| Done (a : A)
| Returned
| Raised (e : Exn).
Arguments Done {A} a.
Arguments Returned {A}.
Arguments Raised {A} e.

(** ** The monad of [main]: state, early return and exceptions *)

Definition M (A : Type) : Type := State -> Outcome A * State.

Definition ret {A} (a : A) : M A := fun st => (Done a, st).

Definition bind {A B} (c : M A) (k : A -> M B) : M B :=
  fun st =>
    match c st with
    | (Done a, st') => k a st'
    | (Returned, st') => (Returned, st')
    | (Raised e, st') => (Raised e, st')
    end.

Declare Scope py_scope.
Delimit Scope py_scope with py.
Notation "x <- c ;; k" := (bind c (fun x => k))
  (at level 61, c at next level, right associativity) : py_scope.
Notation "c ;; k" := (bind c (fun _ => k))
  (at level 61, right associativity) : py_scope.
Local Open Scope py_scope.

Definition return_ {A} : M A := fun st => (Returned, st).
Definition raise {A} (e : Exn) : M A := fun st => (Raised e, st).

Definition emit (e : Event) : M unit :=
  fun st => (Done tt, {| files := files st; trace := trace st ++ [e];
                         best := best st; lr_stepper := lr_stepper st |}).

Definition get_files : M Files := fun st => (Done (files st), st).
Definition get_best : M Best := fun st => (Done (best st), st).

Definition modify_files (f : Files -> Files) : M unit :=
  fun st => (Done tt, {| files := f (files st); trace := trace st;
                         best := best st; lr_stepper := lr_stepper st |}).

Definition set_best (b : Best) : M unit :=
  fun st => (Done tt, {| files := files st; trace := trace st;
                         best := b; lr_stepper := lr_stepper st |}).

Definition set_lr_stepper (t : option LrStepTracker) : M unit :=
  fun st => (Done tt, {| files := files st; trace := trace st;
                         best := best st; lr_stepper := t |}).

(** [for x in xs: body(x)] *)
Fixpoint for_each {A} (xs : list A) (body : A -> M unit) : M unit :=
  match xs with
  | [] => ret tt
  | x :: xs' => body x ;; for_each xs' body
  end.

(** [range(a, b)] *)
Definition py_range (a b : Z) : list Z :=
  map (fun i => a + Z.of_nat i) (seq 0 (Z.to_nat (b - a))).

(** ** Writing under the output folder *)

Definition with_folders (o w r t : bool) (f : Files) : Files :=
  {| output_dir := o; params_file := params_file f; weights_folder := w;
     results_folder := r; tensorboard_dir := t;
     results_file := results_file f; best_loss_file := best_loss_file f;
     best_acc_file := best_acc_file f; best_text := best_text f;
     epoch_weights := epoch_weights f |}.

(** [Path.mkdir(exist_ok=True)] on the four folders. *)
Definition mk_output_dir (f : Files) : Files :=
  with_folders true (weights_folder f) (results_folder f) (tensorboard_dir f) f.
Definition mk_weights_folder (f : Files) : Files :=
  with_folders (output_dir f) true (results_folder f) (tensorboard_dir f) f.
Definition mk_results_folder (f : Files) : Files :=
  with_folders (output_dir f) (weights_folder f) true (tensorboard_dir f) f.
Definition mk_tensorboard_dir (f : Files) : Files :=
  with_folders (output_dir f) (weights_folder f) (results_folder f) true f.

Definition with_params_file (a : Args) (f : Files) : Files :=
  {| output_dir := output_dir f; params_file := Some a;
     weights_folder := weights_folder f; results_folder := results_folder f;
     tensorboard_dir := tensorboard_dir f;
     results_file := results_file f; best_loss_file := best_loss_file f;
     best_acc_file := best_acc_file f; best_text := best_text f;
     epoch_weights := epoch_weights f |}.

Definition with_results_file (c : list CsvRecord) (f : Files) : Files :=
  {| output_dir := output_dir f; params_file := params_file f;
     weights_folder := weights_folder f; results_folder := results_folder f;
     tensorboard_dir := tensorboard_dir f;
     results_file := Some c; best_loss_file := best_loss_file f;
     best_acc_file := best_acc_file f; best_text := best_text f;
     epoch_weights := epoch_weights f |}.

Definition with_best_loss_file (w : Weights) (f : Files) : Files :=
  {| output_dir := output_dir f; params_file := params_file f;
     weights_folder := weights_folder f; results_folder := results_folder f;
     tensorboard_dir := tensorboard_dir f;
     results_file := results_file f; best_loss_file := Some w;
     best_acc_file := best_acc_file f; best_text := best_text f;
     epoch_weights := epoch_weights f |}.

Definition with_best_acc_file (w : Weights) (f : Files) : Files :=
  {| output_dir := output_dir f; params_file := params_file f;
     weights_folder := weights_folder f; results_folder := results_folder f;
     tensorboard_dir := tensorboard_dir f;
     results_file := results_file f; best_loss_file := best_loss_file f;
     best_acc_file := Some w; best_text := best_text f;
     epoch_weights := epoch_weights f |}.

Definition with_best_text (t : list (string * Field)) (f : Files) : Files :=
  {| output_dir := output_dir f; params_file := params_file f;
     weights_folder := weights_folder f; results_folder := results_folder f;
     tensorboard_dir := tensorboard_dir f;
     results_file := results_file f; best_loss_file := best_loss_file f;
     best_acc_file := best_acc_file f; best_text := Some t;
     epoch_weights := epoch_weights f |}.

Definition with_epoch_weights (name : string) (w : Weights) (f : Files) : Files :=
  {| output_dir := output_dir f; params_file := params_file f;
     weights_folder := weights_folder f; results_folder := results_folder f;
     tensorboard_dir := tensorboard_dir f;
     results_file := results_file f; best_loss_file := best_loss_file f;
     best_acc_file := best_acc_file f; best_text := best_text f;
     epoch_weights := (name, w) :: epoch_weights f |}.

(** [open(results_file, "a")] followed by one [writerow]: the file is
    created when it is missing, and the row goes after what is there. *)
Definition append_results_row (row : CsvRecord) (f : Files) : Files :=
  with_results_file
    (match results_file f with Some rows => rows ++ [row] | None => [row] end) f.

(** ** Strings of integers *)

(** [str(n)] for an [int]. *)
Definition py_str (n : Z) : string := NilZero.string_of_int (Z.to_int n).

Fixpoint zeros (n : nat) : string :=
  match n with
  | O => EmptyString
  | S n' => String "0" (zeros n')
  end.

(** [s.zfill(width)]: zeros go after a leading sign. *)
Definition zfill (s : string) (width : Z) : string :=
  let fill := Z.to_nat (width - Z.of_nat (String.length s)) in
  match s with
  | String c rest =>
      if (Ascii.eqb c "+" || Ascii.eqb c "-")%bool
      then String c (zeros fill ++ rest)%string
      else (zeros fill ++ s)%string
  | EmptyString => zeros fill
  end.

(** ** [train.py] *)

Definition CSV_HEADER : list string :=
  ["Epoch"; "Learn rate"; "Avg Train loss"; "Train Accuracy";
   "Avg Eval loss"; "Eval accuracy"].

(** Baseline is an untrained epoch that is evaluated as a baseline loss and
    accuracy. *)
Definition BASELINE_EPOCH : Z := -1.

(** ["epoch_" + str(epoch+1).zfill(PREPEND_ZEROS_WIDTH) + ".pickle"] *)
Definition epoch_file_name (env : Env) (n : Z) : string :=
  ("epoch_" ++ zfill (py_str n) (PREPEND_ZEROS_WIDTH env) ++ ".pickle")%string.

Definition best_text_lines (b : Best) : list (string * Field) :=
  [ ("Best eval acc epoch:", FInt (best_eval_acc_epoch b));
    ("Best eval acc:", FFloat (best_eval_acc b));
    ("Best eval loss epoch:", FInt (best_eval_loss_epoch b));
    ("Best eval loss:", FFloat (best_eval_loss b)) ].

Definition result_row (n : Z) (lr train_loss train_acc eval_loss eval_acc : float)
  : CsvRecord :=
  [FInt n; FFloat lr; FFloat train_loss; FFloat train_acc;
   FFloat eval_loss; FFloat eval_acc].

(** Lines 187-191: the accuracy record. *)
Definition track_acc (epoch : Z) (eval_acc : float) : M bool :=
  b <- get_best ;;
  if PyFloat.gt eval_acc (best_eval_acc b) then
    set_best {| best_eval_acc := eval_acc;
                best_eval_acc_epoch := epoch + 1;
                best_eval_loss := best_eval_loss b;
                best_eval_loss_epoch := best_eval_loss_epoch b |} ;;
    modify_files (with_best_acc_file {| taken_at := epoch |}) ;;
    emit (SaveBestAcc {| taken_at := epoch |}) ;;
    ret true
  else ret false.

(** Lines 193-197: the loss record. *)
Definition track_loss (epoch : Z) (eval_loss : float) : M bool :=
  b <- get_best ;;
  if PyFloat.lt eval_loss (best_eval_loss b) then
    set_best {| best_eval_acc := best_eval_acc b;
                best_eval_acc_epoch := best_eval_acc_epoch b;
                best_eval_loss := eval_loss;
                best_eval_loss_epoch := epoch + 1 |} ;;
    modify_files (with_best_loss_file {| taken_at := epoch |}) ;;
    emit (SaveBestLoss {| taken_at := epoch |}) ;;
    ret true
  else ret false.

(** Lines 185-206: [new_best] starts False, each record sets it, and the
    summary is written with mode ["w"] when it is set. *)
Definition track_best (epoch : Z) (eval_loss eval_acc : float) : M unit :=
  improved_acc <- track_acc epoch eval_acc ;;
  improved_loss <- track_loss epoch eval_loss ;;
  let new_best := (improved_acc || improved_loss)%bool in
  if new_best then
    b <- get_best ;;
    modify_files (with_best_text (best_text_lines b)) ;;
    emit (WriteBestText (best_text_lines b))
  else ret tt.

(** Lines 217-220.  Python's [%] is the floored remainder, as [Z.modulo],
    and raises on a zero divisor. *)
Definition save_epoch_weights (args : Args) (env : Env) (epoch : Z) : M unit :=
  if weight_modulus args =? 0 then raise ZeroDivisionError
  else if (epoch + 1) mod weight_modulus args =? 0 then
    modify_files (with_epoch_weights (epoch_file_name env (epoch + 1))
                                     {| taken_at := epoch |}) ;;
    emit (SaveEpochWeights (epoch_file_name env (epoch + 1)) {| taken_at := epoch |})
  else ret tt.

(** The body of the train loop, lines 146-224. *)
Definition epoch_body (args : Args) (env : Env) (epoch : Z) : M unit :=
  (if epoch >? BASELINE_EPOCH then emit (TrainEpoch (epoch + 1)) else ret tt) ;;
  emit (EvalModel TrainLoader) ;;
  let '(train_loss, train_acc) := eval_train env epoch in
  emit (EvalModel TestLoader) ;;
  let '(eval_loss, eval_acc) := eval_test env epoch in
  let lr := get_lr env epoch in
  track_best epoch eval_loss eval_acc ;;
  (if no_tensorboard args then ret tt else emit (AddScalars (epoch + 1))) ;;
  save_epoch_weights args env epoch ;;
  let row := result_row (epoch + 1) lr train_loss train_acc eval_loss eval_acc in
  modify_files (append_results_row row) ;;
  emit (AppendRow row).

(** Lines 89-100: the start epoch, or the two configuration errors. *)
Definition continue_from (args : Args) : M Z :=
  match continue_weights args with
  | Some path =>
      match continue_epoch args with
      | None =>
          emit (PrintError "ERROR: Need epoch number to continue from (-continue_epoch) when using continue_weights") ;;
          return_
      | Some e => emit (LoadStateDict path) ;; ret e
      end
  | None =>
      match continue_epoch args with
      | Some _ =>
          emit (PrintError "ERROR: Need continue weights (-continue_weights) when using continue_epoch") ;;
          return_
      | None => ret BASELINE_EPOCH
      end
  end.

(** Lines 102-129: the step tracker of the schedule, or the static rate,
    and the optimizer built over it. *)
Definition make_optimizer (args : Args) (env : Env) : M unit :=
  match lr args with
  | None =>
      let init_step :=
        match continue_epoch args with
        | None => 0
        | Some e => e * len_train_loader env
        end in
      let stepper := {| model_dim := d_model args;
                        warmup_steps := SCHEDULER_WARMUP_STEPS env;
                        init_steps := init_step |} in
      set_lr_stepper (Some stepper) ;;
      emit (MakeOptimizer (LR_DEFAULT_START env) (Some stepper))
  | Some v => emit (MakeOptimizer v None)
  end.

(** Lines 131-135. *)
Definition initial_best : Best :=
  {| best_eval_acc := 0%float; best_eval_acc_epoch := -1;
     best_eval_loss := PyFloat.inf; best_eval_loss_epoch := -1 |}.

(** Lines 137-141: the header is written only when the log is not there. *)
Definition results_reporting : M unit :=
  f <- get_files ;;
  match results_file f with
  | Some _ => ret tt
  | None =>
      modify_files (with_results_file [map FStr CSV_HEADER]) ;;
      emit WriteCsvHeader
  end.

(** Lines 37-141 of [main]: everything before the train loop; the value
    is [start_epoch].  The name [device] is a local of [main] that only the
    [force_cpu] branch assigns, so reading it at line 87 raises when that
    branch was not taken. *)
Definition main_setup (args : Args) (env : Env) : M Z :=
  modify_files mk_output_dir ;; emit (Mkdir "output_dir") ;;
  modify_files (with_params_file args) ;; emit WriteModelParams ;;
  modify_files mk_weights_folder ;; emit (Mkdir "weights") ;;
  modify_files mk_results_folder ;; emit (Mkdir "results") ;;
  (if no_tensorboard args then ret tt
   else modify_files mk_tensorboard_dir ;; emit OpenSummaryWriter) ;;
  emit CreateDatasets ;;
  emit BuildModel ;;
  (if force_cpu args then ret tt else raise (UnboundLocalError "device")) ;;
  start_epoch <- continue_from args ;;
  make_optimizer args env ;;
  set_best initial_best ;;
  results_reporting ;;
  ret start_epoch.

(** Lines 145-224: [for epoch in range(start_epoch, args.epochs)]. *)
Definition train_loop (args : Args) (env : Env) (start_epoch : Z) : M unit :=
  for_each (py_range start_epoch (epochs args)) (epoch_body args env).

(** [main]. *)
Definition main (args : Args) (env : Env) : M unit :=
  start_epoch <- main_setup args env ;;
  train_loop args env start_epoch ;;
  (if no_tensorboard args then ret tt else emit FlushSummary).

(** The process starts with nothing printed or called yet; the variables of
    [main] are unassigned (the best records hold what line 132 will give
    them). *)
Definition start_state (f : Files) : State :=
  {| files := f; trace := []; best := initial_best; lr_stepper := None |}.

(** One invocation of [train.py] over the output folder [f]. *)
Definition run (args : Args) (env : Env) (f : Files) : Outcome unit * State :=
  main args env (start_state f).

(** Modelled from the spec: [LrStepTracker.step] of
    [utilities/lr_scheduling.py], which is not among the sources.  The
    spec (4.2) gives the schedule as a function of the step, the model width
    d, the warmup count W and the initial offset: the effective step is the
    step plus the offset, guarded to be at least 1, and the rate is
    d^(-0.5) * min(effective_step^(-0.5), effective_step * W^(-1.5)). *)
Definition LrStepTracker_step (t : LrStepTracker) (step : Z) : R :=
  let effective_step := Z.max 1 (step + init_steps t) in
  (Rpower (IZR (model_dim t)) (- / 2) *
   Rmin (Rpower (IZR effective_step) (- / 2))
        (IZR effective_step * Rpower (IZR (warmup_steps t)) (- (3 / 2))))%R.

(** ** Reading a trace *)

(** The events added between two states of one execution. *)
Definition new_events (st st' : State) : list Event :=
  skipn (List.length (trace st)) (trace st').

(** The training and evaluation passes, in order. *)
Definition passes (evs : list Event) : list Event :=
  filter (fun e => match e with TrainEpoch _ | EvalModel _ => true | _ => false end) evs.

(** The rows appended to the results log, in order. *)
Definition appended_rows (evs : list Event) : list CsvRecord :=
  flat_map (fun e => match e with AppendRow r => [r] | _ => [] end) evs.

(** The names of the numbered snapshots saved, in order. *)
Definition snapshot_names (evs : list Event) : list string :=
  flat_map (fun e => match e with SaveEpochWeights n _ => [n] | _ => [] end) evs.

(** The saves of the two best-weight artifacts, in order. *)
Definition best_saves (evs : list Event) : list Event :=
  filter (fun e => match e with SaveBestAcc _ | SaveBestLoss _ => true | _ => false end) evs.

(** The rewrites of the best-summary file, in order. *)
Definition best_text_writes (evs : list Event) : list (list (string * Field)) :=
  flat_map (fun e => match e with WriteBestText t => [t] | _ => [] end) evs.

(** The epoch column of a list of rows. *)
Definition row_epochs (rows : list CsvRecord) : list Z :=
  flat_map (fun r => match r with FInt n :: _ => [n] | _ => [] end) rows.

(** The row that the iteration [epoch] appends. *)
Definition row_of (env : Env) (epoch : Z) : CsvRecord :=
  result_row (epoch + 1) (get_lr env epoch)
             (fst (eval_train env epoch)) (snd (eval_train env epoch))
             (fst (eval_test env epoch)) (snd (eval_test env epoch)).

(** The value of [start_epoch] when the resume arguments are consistent. *)
Definition start_epoch_of (args : Args) : Z :=
  match continue_epoch args with Some e => e | None => BASELINE_EPOCH end.

(** ** [preprocess_midi.py] *)

Module Preprocess.

(** One entry of the MAESTRO json: the two keys [prep_maestro_midi] reads. *)
Record Piece := {
  midi_filename : string;
  split         : string
}.

Inductive SplitDir := TrainDir | ValDir | TestDir.

(** What [prep_maestro_midi] does to the outside world, in program order. *)
Inductive Event :=
| Mkdir (folder : string)
| PrintMissing (json_file : string)
| PrintFound (n : Z)
| PrintUnrecognized (split_type : string)
| EncodeMidi (mid : string)
| Dump (dir : SplitDir) (f_name : string) (mid : string)
| PrintProgress (total_count n : Z)
| PrintCounts (train_count val_count test_count : Z).

Record Counts := {
  total_count : Z;
  train_count : Z;
  val_count   : Z;
  test_count  : Z
}.

Definition JSON_FILE : string := "maestro-v2.0.0.json".

Definition is_sep (c : ascii) : bool := Ascii.eqb c "/".

Fixpoint ends_with_sep (s : string) : bool :=
  match s with
  | EmptyString => false
  | String c EmptyString => is_sep c
  | String _ r => ends_with_sep r
  end.

(** [os.path.join(a, b)] on a POSIX system. *)
Definition path_join (a b : string) : string :=
  match b with
  | String c _ =>
      if is_sep c then b
      else if (String.eqb a "" || ends_with_sep a)%bool then (a ++ b)%string
      else (a ++ "/" ++ b)%string
  | EmptyString =>
      if (String.eqb a "" || ends_with_sep a)%bool then a else (a ++ "/")%string
  end.

(** [s.split("/")[-1]], with [acc] the piece being read. *)
Fixpoint last_piece (s acc : string) : string :=
  match s with
  | EmptyString => acc
  | String c r =>
      if is_sep c then last_piece r EmptyString
      else last_piece r (acc ++ String c EmptyString)%string
  end.

(** Lines 54-65: the folder of a split label, when it is one of the three. *)
Definition split_dir (split_type : string) : option SplitDir :=
  if String.eqb split_type "train" then Some TrainDir
  else if String.eqb split_type "validation" then Some ValDir
  else if String.eqb split_type "test" then Some TestDir
  else None.

Definition count (d : SplitDir) (c : Counts) : Counts :=
  match d with
  | TrainDir => {| total_count := total_count c; train_count := train_count c + 1;
                   val_count := val_count c; test_count := test_count c |}
  | ValDir => {| total_count := total_count c; train_count := train_count c;
                 val_count := val_count c + 1; test_count := test_count c |}
  | TestDir => {| total_count := total_count c; train_count := train_count c;
                  val_count := val_count c; test_count := test_count c + 1 |}
  end.

Definition count_total (c : Counts) : Counts :=
  {| total_count := total_count c + 1; train_count := train_count c;
     val_count := val_count c; test_count := test_count c |}.

(** The loop of lines 49-74 over the pieces still to do; [n] is
    [len(maestro_json)].  The value is what the function returns and the
    events of the loop and of what follows it. *)
Fixpoint pieces_loop (maestro_root : string) (n : Z) (pieces : list Piece)
                     (c : Counts) : bool * list Event :=
  match pieces with
  | [] => (true, [PrintCounts (train_count c) (val_count c) (test_count c)])
  | piece :: rest =>
      let mid := path_join maestro_root (midi_filename piece) in
      let split_type := split piece in
      let f_name := (last_piece mid EmptyString ++ ".pickle")%string in
      match split_dir split_type with
      | None => (false, [PrintUnrecognized split_type])
      | Some d =>
          let c1 := count_total (count d c) in
          let '(r, evs) := pieces_loop maestro_root n rest c1 in
          (r, [EncodeMidi mid; Dump d f_name mid]
              ++ (if total_count c1 mod 50 =? 0
                  then [PrintProgress (total_count c1) n] else [])
              ++ evs)
      end
  end.

(** [prep_maestro_midi(maestro_root, output_dir)]; [maestro_root] is the
    string of the [Path] it is turned into, [maestro_json] the parsed content
    of the json file, [None] when the file is not there. *)
Definition prep_maestro_midi (maestro_root : string)
                             (maestro_json : option (list Piece))
  : bool * list Event :=
  let folders := [Mkdir "output_dir"; Mkdir "train"; Mkdir "val"; Mkdir "test"] in
  match maestro_json with
  | None => (false, folders ++ [PrintMissing (path_join maestro_root JSON_FILE)])
  | Some pieces =>
      let n := Z.of_nat (List.length pieces) in
      let '(r, evs) :=
        pieces_loop maestro_root n pieces
          {| total_count := 0; train_count := 0; val_count := 0; test_count := 0 |} in
      (r, folders ++ [PrintFound n] ++ evs)
  end.

(** The files written, in order: folder, name, encoded midi. *)
Definition dumps (evs : list Event) : list (SplitDir * string * string) :=
  flat_map (fun e => match e with Dump d f m => [(d, f, m)] | _ => [] end) evs.

(** The midi files encoded, in order. *)
Definition encoded (evs : list Event) : list string :=
  flat_map (fun e => match e with EncodeMidi m => [m] | _ => [] end) evs.

(** The file that a piece with a recognized label is written to. *)
Definition dump_of (maestro_root : string) (piece : Piece)
  : list (SplitDir * string * string) :=
  let mid := path_join maestro_root (midi_filename piece) in
  match split_dir (split piece) with
  | Some d => [(d, (last_piece mid EmptyString ++ ".pickle")%string, mid)]
  | None => []
  end.

Definition recognized (piece : Piece) : Prop :=
  split piece = "train" \/ split piece = "validation" \/ split piece = "test".

(** The labels of the split folders, as counted by lines 54-62. *)
Definition count_of (d : SplitDir) (pieces : list Piece) : Z :=
  Z.of_nat (List.length
              (filter (fun p => match split_dir (split p), d with
                                | Some TrainDir, TrainDir
                                | Some ValDir, ValDir
                                | Some TestDir, TestDir => true
                                | _, _ => false
                                end) pieces)).

(** The progress lines printed, in order: the count they show. *)
Definition progress (evs : list Event) : list Z :=
  flat_map (fun e => match e with PrintProgress t _ => [t] | _ => [] end) evs.

(** What [main] of [preprocess_midi.py] prints around the call; the events
    of the call itself are kept as they are. *)
Inductive MainEvent :=
| PrintPreprocessing (output_dir : string)
| Prep (e : Event)
| PrintDone.

(** [main], lines 98-116, after [parse_args]: the value of
    [prep_maestro_midi] is dropped. *)
Definition main (root output_dir : string) (maestro_json : option (list Piece))
  : list MainEvent :=
  [PrintPreprocessing output_dir]
  ++ map Prep (snd (prep_maestro_midi root maestro_json))
  ++ [PrintDone].

(** Three good pieces around one with the label of another dataset. *)
Definition example_pieces : list Piece :=
  [ {| midi_filename := "2004/a.midi"; split := "train" |};
    {| midi_filename := "2006/b.midi"; split := "validation" |};
    {| midi_filename := "2008/c.midi"; split := "dev" |};
    {| midi_filename := "2009/d.midi"; split := "test" |} ].

End Preprocess.

(** ** One iteration and the loop, event by event

    What the monadic code does, written as plain functions of the best
    records an iteration starts from; the lemmas below show that
    [epoch_body] and [for_each] compute exactly these. *)

(** The resume arguments are given together or not at all. *)
Definition resume_consistent (args : Args) : bool :=
  match continue_weights args, continue_epoch args with
  | Some _, Some _ | None, None => true
  | _, _ => false
  end.

(** A run reaches the loop when [device] is assigned and the resume
    arguments are consistent. *)
Definition reaches_loop (args : Args) : bool :=
  (force_cpu args && resume_consistent args)%bool.

(** The iterations of the loop of a run, by loop variable. *)
Definition loop_epochs (args : Args) : list Z :=
  py_range (start_epoch_of args) (epochs args).

(** The step tracker that line 110 builds. *)
Definition stepper_of (args : Args) (env : Env) : LrStepTracker :=
  {| model_dim := d_model args;
     warmup_steps := SCHEDULER_WARMUP_STEPS env;
     init_steps := match continue_epoch args with
                   | None => 0
                   | Some e => e * len_train_loader env
                   end |}.

(** The events of lines 37-141. *)
Definition is_setup_event (e : Event) : bool :=
  match e with
  | Mkdir _ | WriteModelParams | OpenSummaryWriter | CreateDatasets | BuildModel
  | PrintError _ | LoadStateDict _ | MakeOptimizer _ _ | WriteCsvHeader => true
  | _ => false
  end.

(** The state of [main] once the passes of an iteration are over. *)
Definition after_passes (epoch : Z) (st : State) : State :=
  {| files := files st;
     trace := trace st
              ++ (if epoch >? BASELINE_EPOCH then [TrainEpoch (epoch + 1)] else [])
              ++ [EvalModel TrainLoader; EvalModel TestLoader];
     best := best st; lr_stepper := lr_stepper st |}.

(** The state after the best records were brought up to date. *)
Definition after_tracking (env : Env) (epoch : Z) (st : State) : State :=
  snd (track_best epoch (fst (eval_test env epoch)) (snd (eval_test env epoch))
                  (after_passes epoch st)).

Definition scalars_events (args : Args) (epoch : Z) : list Event :=
  if no_tensorboard args then [] else [AddScalars (epoch + 1)].

Definition snapshot_due (args : Args) (epoch : Z) : bool :=
  (epoch + 1) mod weight_modulus args =? 0.

(** The best records after the observation of iteration [epoch]. *)
Definition tracked (env : Env) (epoch : Z) (b : Best) : Best :=
  let acc_up := PyFloat.gt (snd (eval_test env epoch)) (best_eval_acc b) in
  let loss_up := PyFloat.lt (fst (eval_test env epoch)) (best_eval_loss b) in
  {| best_eval_acc := if acc_up then snd (eval_test env epoch) else best_eval_acc b;
     best_eval_acc_epoch := if acc_up then epoch + 1 else best_eval_acc_epoch b;
     best_eval_loss := if loss_up then fst (eval_test env epoch) else best_eval_loss b;
     best_eval_loss_epoch := if loss_up then epoch + 1 else best_eval_loss_epoch b |}.

Definition pass_events (epoch : Z) : list Event :=
  (if epoch >? BASELINE_EPOCH then [TrainEpoch (epoch + 1)] else [])
  ++ [EvalModel TrainLoader; EvalModel TestLoader].

Definition tracking_events (env : Env) (epoch : Z) (b : Best) : list Event :=
  let acc_up := PyFloat.gt (snd (eval_test env epoch)) (best_eval_acc b) in
  let loss_up := PyFloat.lt (fst (eval_test env epoch)) (best_eval_loss b) in
  (if acc_up then [SaveBestAcc {| taken_at := epoch |}] else [])
  ++ (if loss_up then [SaveBestLoss {| taken_at := epoch |}] else [])
  ++ (if (acc_up || loss_up)%bool
      then [WriteBestText (best_text_lines (tracked env epoch b))] else []).

Definition closing_events (args : Args) (env : Env) (epoch : Z) : list Event :=
  scalars_events args epoch
  ++ (if weight_modulus args =? 0 then []
      else (if snapshot_due args epoch
            then [SaveEpochWeights (epoch_file_name env (epoch + 1))
                                   {| taken_at := epoch |}]
            else [])
           ++ [AppendRow (row_of env epoch)]).

(** Everything one iteration adds to the trace. *)
Definition iteration_events (args : Args) (env : Env) (epoch : Z) (b : Best)
  : list Event :=
  pass_events epoch ++ tracking_events env epoch b ++ closing_events args env epoch.

(** Everything the loop over [l] adds to the trace, from the best records
    [b]; a zero [weight_modulus] ends the loop in its first iteration. *)
Fixpoint loop_events (args : Args) (env : Env) (l : list Z) (b : Best) : list Event :=
  match l with
  | [] => []
  | e :: l' =>
      iteration_events args env e b
      ++ (if weight_modulus args =? 0 then []
          else loop_events args env l' (tracked env e b))
  end.

(** A list of integers in strictly increasing order. *)
Fixpoint increasing (l : list Z) : Prop :=
  match l with
  | [] => True
  | x :: l' => match l' with [] => True | y :: _ => x < y end /\ increasing l'
  end.

(** [args] without the two resume arguments: the uninterrupted run. *)
Definition without_resume (args : Args) : Args :=
  {| force_cpu := force_cpu args; no_tensorboard := no_tensorboard args;
     continue_weights := None; continue_epoch := None;
     lr := lr args; epochs := epochs args;
     weight_modulus := weight_modulus args; d_model := d_model args |}.

(** [args] with the tensorboard switch set to [b]. *)
Definition with_no_tensorboard (b : bool) (args : Args) : Args :=
  {| force_cpu := force_cpu args; no_tensorboard := b;
     continue_weights := continue_weights args;
     continue_epoch := continue_epoch args;
     lr := lr args; epochs := epochs args;
     weight_modulus := weight_modulus args; d_model := d_model args |}.

(** The calls into tensorboard. *)
Definition is_tensorboard_event (e : Event) : bool :=
  match e with
  | OpenSummaryWriter | AddScalars _ | FlushSummary => true
  | _ => false
  end.

(** A trace without its calls into tensorboard. *)
Definition without_tensorboard (evs : list Event) : list Event :=
  filter (fun e => negb (is_tensorboard_event e)) evs.

(** An output folder without its tensorboard folder and parameter file. *)
Definition files_core (f : Files) : Files :=
  {| output_dir := output_dir f; params_file := None;
     weights_folder := weights_folder f; results_folder := results_folder f;
     tensorboard_dir := false;
     results_file := results_file f; best_loss_file := best_loss_file f;
     best_acc_file := best_acc_file f; best_text := best_text f;
     epoch_weights := epoch_weights f |}.

(** A state without what tensorboard adds to it. *)
Definition core (st : State) : State :=
  {| files := files_core (files st); trace := without_tensorboard (trace st);
     best := best st; lr_stepper := lr_stepper st |}.

(** The best records after the iterations [l], in order, from [b]. *)
Definition tracked_over (env : Env) (l : list Z) (b : Best) : Best :=
  fold_left (fun b e => tracked env e b) l b.

(** The events of lines 37-87, which every run goes through. *)
Definition opening_events (args : Args) : list Event :=
  [Mkdir "output_dir"; WriteModelParams; Mkdir "weights"; Mkdir "results"]
  ++ (if no_tensorboard args then [] else [OpenSummaryWriter])
  ++ [CreateDatasets; BuildModel].

(** ** Concrete runs *)

Module Example.

(** An output folder that does not exist yet. *)
Definition empty_files : Files :=
  {| output_dir := false; params_file := None; weights_folder := false;
     results_folder := false; tensorboard_dir := false; results_file := None;
     best_loss_file := None; best_acc_file := None; best_text := None;
     epoch_weights := [] |}.

(** The output folder a run of two epochs left behind. *)
Definition prior_files : Files :=
  {| output_dir := true; params_file := None; weights_folder := true;
     results_folder := true; tensorboard_dir := false;
     results_file := Some [map FStr CSV_HEADER;
                           result_row 0 0.125 4 0.125 4 0.125;
                           result_row 1 0.125 2 0.5 2 0.5;
                           result_row 2 0.125 2 0.5 3 0.25];
     best_loss_file := Some {| taken_at := 0 |};
     best_acc_file := Some {| taken_at := 0 |};
     best_text := Some [("Best eval acc epoch:", FInt 1);
                        ("Best eval acc:", FFloat 0.5);
                        ("Best eval loss epoch:", FInt 1);
                        ("Best eval loss:", FFloat 2)];
     epoch_weights := [("epoch_0002.pickle", {| taken_at := 1 |});
                       ("epoch_0000.pickle", {| taken_at := -1 |})] |}.

(** Four batches per epoch; the held-out metrics are best at the baseline
    and worse afterwards. *)
Definition env : Env :=
  {| LR_DEFAULT_START := 1; SCHEDULER_WARMUP_STEPS := 4000;
     PREPEND_ZEROS_WIDTH := 4; len_train_loader := 4;
     eval_train := fun _ => (2, 0.5)%float;
     eval_test := fun e => if e =? -1 then (2, 0.5)%float else (3, 0.25)%float;
     get_lr := fun _ => 0.125%float |}.

(** The held-out accuracy is 0 and the held-out loss is infinite in every
    epoch. *)
Definition flat_env : Env :=
  {| LR_DEFAULT_START := 1; SCHEDULER_WARMUP_STEPS := 4000;
     PREPEND_ZEROS_WIDTH := 4; len_train_loader := 4;
     eval_train := fun _ => (2, 0.5)%float;
     eval_test := fun _ => (infinity, 0)%float;
     get_lr := fun _ => 0.125%float |}.

(** [train.py --force_cpu --no_tensorboard -epochs 4 -weight_modulus 2] *)
Definition fresh_args : Args :=
  {| force_cpu := true; no_tensorboard := true; continue_weights := None;
     continue_epoch := None; lr := None; epochs := 4; weight_modulus := 2;
     d_model := 512 |}.

(** The same, continued from the snapshot of epoch 2. *)
Definition resumed_args : Args :=
  {| force_cpu := true; no_tensorboard := true;
     continue_weights := Some "weights/epoch_0002.pickle";
     continue_epoch := Some 2; lr := None; epochs := 4; weight_modulus := 2;
     d_model := 512 |}.

(** The weights are given, the epoch number is not. *)
Definition half_resume_args : Args :=
  {| force_cpu := true; no_tensorboard := true;
     continue_weights := Some "weights/epoch_0002.pickle";
     continue_epoch := None; lr := None; epochs := 4; weight_modulus := 2;
     d_model := 512 |}.

(** A state whose records are accuracy 0.5 and loss 2, both of epoch 1. *)
Definition plateau_state : State :=
  {| files := prior_files; trace := [];
     best := {| best_eval_acc := 0.5; best_eval_acc_epoch := 1;
                best_eval_loss := 2; best_eval_loss_epoch := 1 |};
     lr_stepper := None |}.

End Example.

(** ** Facts about float comparison *)

Module PyFloatFacts.

Lemma SFcompare_Eq_sym (x y : SpecFloat.spec_float) :
  SpecFloat.SFcompare x y = Some Eq -> SpecFloat.SFcompare y x = Some Eq.
Proof.
  destruct x as [sx|sx| |sx mx ex], y as [sy|sy| |sy my ey]; simpl;
    try discriminate; try reflexivity;
    try (destruct sx; discriminate); try (destruct sy; discriminate).
  - destruct sx, sy; try discriminate; reflexivity.
  - destruct sx, sy; try discriminate.
    + destruct (Z.compare_spec ex ey) as [He|He|He]; try discriminate.
      subst ey. intros H. injection H as H.
      destruct (Pos.compare_cont Eq mx my) eqn:Hc; try discriminate.
      apply Pos.compare_eq in Hc. subst my.
      rewrite Z.compare_refl, Pos.compare_cont_refl. reflexivity.
    + destruct (Z.compare_spec ex ey) as [He|He|He]; try discriminate.
      subst ey. intros H. injection H as H.
      apply Pos.compare_eq in H. subst my.
      rewrite Z.compare_refl, Pos.compare_cont_refl. reflexivity.
Qed.

(** A value equal to the record is neither above nor below it. *)
Lemma eq_not_lt (a b : float) : PyFloat.eq a b = true -> PyFloat.lt a b = false.
Proof.
  unfold PyFloat.eq, PyFloat.lt. rewrite eqb_spec, ltb_spec.
  unfold SpecFloat.SFeqb, SpecFloat.SFltb.
  destruct (SpecFloat.SFcompare (Prim2SF a) (Prim2SF b)) as [[| |]|];
    try discriminate; reflexivity.
Qed.

Lemma eq_not_gt (a b : float) : PyFloat.eq a b = true -> PyFloat.gt a b = false.
Proof.
  unfold PyFloat.eq, PyFloat.gt. rewrite eqb_spec, ltb_spec.
  unfold SpecFloat.SFeqb, SpecFloat.SFltb. intros H.
  destruct (SpecFloat.SFcompare (Prim2SF a) (Prim2SF b)) as [[| |]|] eqn:Hc;
    try discriminate.
  apply SFcompare_Eq_sym in Hc. rewrite Hc. reflexivity.
Qed.

End PyFloatFacts.

(** ** One loop iteration *)

Lemma new_events_app (st st' : State) (evs : list Event) :
  trace st' = trace st ++ evs -> new_events st st' = evs.
Proof.
  intros H. unfold new_events. rewrite H.
  rewrite skipn_app, skipn_all, Nat.sub_diag. reflexivity.
Qed.

(** Unfolds the monad of [main] in the goal. *)
Ltac unfold_monad :=
  unfold bind, ret, emit, modify_files, set_best, get_best, get_files,
    set_lr_stepper, raise, return_ in *.

Section Tracking.

Variables (epoch : Z) (eval_loss eval_acc : float) (st : State).

Let acc_up := PyFloat.gt eval_acc (best_eval_acc (best st)).
Let loss_up := PyFloat.lt eval_loss (best_eval_loss (best st)).
Let st' := snd (track_best epoch eval_loss eval_acc st).

Lemma track_best_done : fst (track_best epoch eval_loss eval_acc st) = Done tt.
Proof.
  unfold track_best, track_acc, track_loss. unfold_monad. simpl.
  destruct (PyFloat.gt eval_acc (best_eval_acc (best st))); simpl;
    destruct (PyFloat.lt eval_loss (best_eval_loss (best st))); reflexivity.
Qed.

Lemma track_best_best :
  best st' =
  {| best_eval_acc := if acc_up then eval_acc else best_eval_acc (best st);
     best_eval_acc_epoch := if acc_up then epoch + 1 else best_eval_acc_epoch (best st);
     best_eval_loss := if loss_up then eval_loss else best_eval_loss (best st);
     best_eval_loss_epoch := if loss_up then epoch + 1 else best_eval_loss_epoch (best st) |}.
Proof.
  subst st' acc_up loss_up.
  unfold track_best, track_acc, track_loss. unfold_monad. simpl.
  destruct (PyFloat.gt eval_acc (best_eval_acc (best st))); simpl;
    destruct (PyFloat.lt eval_loss (best_eval_loss (best st))); simpl;
    try reflexivity.
  destruct (best st); reflexivity.
Qed.

Lemma track_best_trace :
  trace st' =
  trace st
  ++ (if acc_up then [SaveBestAcc {| taken_at := epoch |}] else [])
  ++ (if loss_up then [SaveBestLoss {| taken_at := epoch |}] else [])
  ++ (if (acc_up || loss_up)%bool then [WriteBestText (best_text_lines (best st'))] else []).
Proof.
  subst st' acc_up loss_up.
  unfold track_best, track_acc, track_loss. unfold_monad. simpl.
  destruct (PyFloat.gt eval_acc (best_eval_acc (best st))); simpl;
    destruct (PyFloat.lt eval_loss (best_eval_loss (best st))); simpl;
    rewrite <- ?app_assoc; simpl; try reflexivity.
  rewrite app_nil_r. reflexivity.
Qed.

Lemma track_best_files :
  files st' =
  let f1 := if acc_up then with_best_acc_file {| taken_at := epoch |} (files st)
            else files st in
  let f2 := if loss_up then with_best_loss_file {| taken_at := epoch |} f1 else f1 in
  if (acc_up || loss_up)%bool then with_best_text (best_text_lines (best st')) f2 else f2.
Proof.
  subst st' acc_up loss_up.
  unfold track_best, track_acc, track_loss. unfold_monad. simpl.
  destruct (PyFloat.gt eval_acc (best_eval_acc (best st))); simpl;
    destruct (PyFloat.lt eval_loss (best_eval_loss (best st))); reflexivity.
Qed.

Lemma track_best_lr_stepper : lr_stepper st' = lr_stepper st.
Proof.
  subst st'.
  unfold track_best, track_acc, track_loss. unfold_monad. simpl.
  destruct (PyFloat.gt eval_acc (best_eval_acc (best st))); simpl;
    destruct (PyFloat.lt eval_loss (best_eval_loss (best st))); reflexivity.
Qed.

End Tracking.

Section Iteration.

Variables (args : Args) (env : Env).

Lemma epoch_body_unfold (epoch : Z) (st : State) :
  epoch_body args env epoch st =
  let st2 := after_tracking env epoch st in
  if weight_modulus args =? 0 then
    (Raised ZeroDivisionError,
     {| files := files st2; trace := trace st2 ++ scalars_events args epoch;
        best := best st2; lr_stepper := lr_stepper st2 |})
  else
    (Done tt,
     {| files := append_results_row (row_of env epoch)
                  (if snapshot_due args epoch
                   then with_epoch_weights (epoch_file_name env (epoch + 1))
                                           {| taken_at := epoch |} (files st2)
                   else files st2);
        trace := trace st2 ++ scalars_events args epoch
                 ++ (if snapshot_due args epoch
                     then [SaveEpochWeights (epoch_file_name env (epoch + 1))
                                            {| taken_at := epoch |}]
                     else [])
                 ++ [AppendRow (row_of env epoch)];
        best := best st2; lr_stepper := lr_stepper st2 |}).
Proof.
  unfold after_tracking, after_passes, epoch_body, row_of, scalars_events,
    snapshot_due, save_epoch_weights.
  destruct (eval_train env epoch) as [train_loss train_acc].
  destruct (eval_test env epoch) as [eval_loss eval_acc]. simpl fst; simpl snd.
  unfold bind at 1 2 3.
  assert (Hpre : forall s : State,
    (if epoch >? BASELINE_EPOCH then emit (TrainEpoch (epoch + 1)) else ret tt) s =
    (Done tt, {| files := files s;
                 trace := trace s ++ (if epoch >? BASELINE_EPOCH
                                      then [TrainEpoch (epoch + 1)] else []);
                 best := best s; lr_stepper := lr_stepper s |})).
  { intros s. destruct (epoch >? BASELINE_EPOCH); unfold emit, ret.
    - reflexivity.
    - rewrite app_nil_r. destruct s; reflexivity. }
  rewrite Hpre. unfold emit at 1 2. simpl.
  rewrite <- !app_assoc. simpl.
  unfold bind at 1.
  match goal with
  | |- context [track_best ?e ?l ?a ?s] =>
      pose proof (track_best_done e l a s) as Hd;
      destruct (track_best e l a s) as [o st2]
  end.
  simpl in Hd. subst o. simpl.
  destruct (no_tensorboard args), (weight_modulus args =? 0); unfold_monad; simpl;
    try (rewrite ?app_nil_r; destruct st2; reflexivity);
    destruct ((epoch + 1) mod weight_modulus args =? 0); simpl;
    rewrite <- ?app_assoc; reflexivity.
Qed.

End Iteration.

Section IterationFacts.

Variables (args : Args) (env : Env).

Lemma after_tracking_best (epoch : Z) (st : State) :
  best (after_tracking env epoch st) = tracked env epoch (best st).
Proof. unfold after_tracking. rewrite track_best_best. reflexivity. Qed.

Lemma after_tracking_trace (epoch : Z) (st : State) :
  trace (after_tracking env epoch st) =
  trace st ++ pass_events epoch ++ tracking_events env epoch (best st).
Proof.
  pose proof (after_tracking_best epoch st) as Hb.
  unfold after_tracking in *. rewrite track_best_trace, Hb.
  unfold after_passes, pass_events, tracking_events. simpl.
  rewrite <- !app_assoc. reflexivity.
Qed.

Lemma after_tracking_lr_stepper (epoch : Z) (st : State) :
  lr_stepper (after_tracking env epoch st) = lr_stepper st.
Proof. unfold after_tracking. rewrite track_best_lr_stepper. reflexivity. Qed.

Lemma after_tracking_results_file (epoch : Z) (st : State) :
  results_file (files (after_tracking env epoch st)) = results_file (files st).
Proof.
  unfold after_tracking. rewrite track_best_files. simpl.
  repeat match goal with |- context [if ?c then _ else _] => destruct c end;
    reflexivity.
Qed.

Lemma after_tracking_epoch_weights (epoch : Z) (st : State) :
  epoch_weights (files (after_tracking env epoch st)) = epoch_weights (files st).
Proof.
  unfold after_tracking. rewrite track_best_files. simpl.
  repeat match goal with |- context [if ?c then _ else _] => destruct c end;
    reflexivity.
Qed.

Lemma after_tracking_best_text (epoch : Z) (st : State) :
  best_text (files (after_tracking env epoch st)) =
  if (PyFloat.gt (snd (eval_test env epoch)) (best_eval_acc (best st))
      || PyFloat.lt (fst (eval_test env epoch)) (best_eval_loss (best st)))%bool
  then Some (best_text_lines (tracked env epoch (best st)))
  else best_text (files st).
Proof.
  pose proof (after_tracking_best epoch st) as Hb.
  unfold after_tracking in *. rewrite track_best_files, Hb. simpl.
  repeat match goal with |- context [if ?c then _ else _] => destruct c end;
    reflexivity.
Qed.

Lemma epoch_body_outcome (epoch : Z) (st : State) :
  fst (epoch_body args env epoch st) =
  if weight_modulus args =? 0 then Raised ZeroDivisionError else Done tt.
Proof.
  rewrite epoch_body_unfold. simpl.
  destruct (weight_modulus args =? 0); reflexivity.
Qed.

Lemma epoch_body_trace (epoch : Z) (st : State) :
  trace (snd (epoch_body args env epoch st)) =
  trace st ++ iteration_events args env epoch (best st).
Proof.
  rewrite epoch_body_unfold. unfold iteration_events, closing_events. simpl.
  destruct (weight_modulus args =? 0); simpl;
    rewrite after_tracking_trace, <- !app_assoc, ?app_nil_r; reflexivity.
Qed.

Lemma epoch_body_best (epoch : Z) (st : State) :
  best (snd (epoch_body args env epoch st)) = tracked env epoch (best st).
Proof.
  rewrite epoch_body_unfold. simpl.
  destruct (weight_modulus args =? 0); simpl; apply after_tracking_best.
Qed.

Lemma epoch_body_lr_stepper (epoch : Z) (st : State) :
  lr_stepper (snd (epoch_body args env epoch st)) = lr_stepper st.
Proof.
  rewrite epoch_body_unfold. simpl.
  destruct (weight_modulus args =? 0); simpl; apply after_tracking_lr_stepper.
Qed.

Lemma epoch_body_results_file (epoch : Z) (st : State) :
  results_file (files (snd (epoch_body args env epoch st))) =
  if weight_modulus args =? 0 then results_file (files st)
  else Some (match results_file (files st) with
             | Some rows => rows ++ [row_of env epoch]
             | None => [row_of env epoch]
             end).
Proof.
  rewrite epoch_body_unfold. simpl.
  destruct (weight_modulus args =? 0); simpl.
  - apply after_tracking_results_file.
  - unfold append_results_row. simpl.
    destruct (snapshot_due args epoch); simpl;
      rewrite after_tracking_results_file; reflexivity.
Qed.

Lemma epoch_body_best_text (epoch : Z) (st : State) :
  best_text (files (snd (epoch_body args env epoch st))) =
  if (PyFloat.gt (snd (eval_test env epoch)) (best_eval_acc (best st))
      || PyFloat.lt (fst (eval_test env epoch)) (best_eval_loss (best st)))%bool
  then Some (best_text_lines (tracked env epoch (best st)))
  else best_text (files st).
Proof.
  rewrite epoch_body_unfold. simpl.
  destruct (weight_modulus args =? 0); simpl.
  - apply after_tracking_best_text.
  - destruct (snapshot_due args epoch); simpl; apply after_tracking_best_text.
Qed.

End IterationFacts.

(** ** The train loop *)

Section Loop.

Variables (args : Args) (env : Env).

Lemma for_each_cons (e : Z) (l : list Z) (st : State) :
  for_each (e :: l) (epoch_body args env) st =
  if weight_modulus args =? 0 then epoch_body args env e st else for_each l (epoch_body args env) (snd (epoch_body args env e st)).
Proof.
  simpl. unfold bind. pose proof (epoch_body_outcome args env e st) as Ho.
  destruct (epoch_body args env e st) as [o st1]. simpl in *. subst o.
  destruct (weight_modulus args =? 0); reflexivity.
Qed.

Lemma for_each_outcome (l : list Z) (st : State) :
  fst (for_each l (epoch_body args env) st) =
  match l with
  | [] => Done tt
  | _ :: _ => if weight_modulus args =? 0 then Raised ZeroDivisionError else Done tt
  end.
Proof.
  revert st. induction l as [|e l IH]; intros st; [reflexivity|].
  rewrite for_each_cons. destruct (weight_modulus args =? 0) eqn:Hm.
  - rewrite epoch_body_outcome, Hm. reflexivity.
  - rewrite IH. destruct l; reflexivity.
Qed.

Lemma for_each_trace (l : list Z) (st : State) :
  trace (snd (for_each l (epoch_body args env) st)) = trace st ++ loop_events args env l (best st).
Proof.
  revert st. induction l as [|e l IH]; intros st.
  - simpl. rewrite app_nil_r. reflexivity.
  - rewrite for_each_cons. simpl loop_events.
    destruct (weight_modulus args =? 0).
    + rewrite epoch_body_trace, app_nil_r. reflexivity.
    + rewrite IH, epoch_body_trace, epoch_body_best, <- app_assoc. reflexivity.
Qed.

Lemma for_each_lr_stepper (l : list Z) (st : State) :
  lr_stepper (snd (for_each l (epoch_body args env) st)) = lr_stepper st.
Proof.
  revert st. induction l as [|e l IH]; intros st; [reflexivity|].
  rewrite for_each_cons. destruct (weight_modulus args =? 0).
  - apply epoch_body_lr_stepper.
  - rewrite IH. apply epoch_body_lr_stepper.
Qed.

Lemma for_each_results_file (l : list Z) (st : State) (old : list CsvRecord) :
  results_file (files st) = Some old ->
  results_file (files (snd (for_each l (epoch_body args env) st))) =
  Some (old ++ (if weight_modulus args =? 0 then [] else map (row_of env) l)).
Proof.
  revert st old. induction l as [|e l IH]; intros st old Hold.
  - simpl. destruct (weight_modulus args =? 0); rewrite app_nil_r; exact Hold.
  - rewrite for_each_cons. destruct (weight_modulus args =? 0) eqn:Hm.
    + rewrite epoch_body_results_file, Hm, app_nil_r. exact Hold.
    + rewrite (IH _ (old ++ [row_of env e])).
      * rewrite <- app_assoc. reflexivity.
      * rewrite epoch_body_results_file, Hm, Hold. reflexivity.
Qed.

(** *** What the loop's events project to *)

Lemma passes_iteration (e : Z) (b : Best) :
  passes (iteration_events args env e b) = pass_events e.
Proof.
  unfold iteration_events, tracking_events, closing_events, scalars_events,
    pass_events, passes.
  rewrite !filter_app.
  repeat match goal with |- context [if ?c then _ else _] => destruct c end;
    reflexivity.
Qed.

Lemma rows_iteration (e : Z) (b : Best) :
  appended_rows (iteration_events args env e b) =
  if weight_modulus args =? 0 then [] else [row_of env e].
Proof.
  unfold iteration_events, tracking_events, closing_events, scalars_events,
    pass_events, appended_rows.
  rewrite !flat_map_app.
  repeat match goal with |- context [if ?c then _ else _] => destruct c end;
    reflexivity.
Qed.

Lemma snapshots_iteration (e : Z) (b : Best) :
  snapshot_names (iteration_events args env e b) =
  if weight_modulus args =? 0 then []
  else if snapshot_due args e then [epoch_file_name env (e + 1)] else [].
Proof.
  unfold iteration_events, tracking_events, closing_events, scalars_events,
    pass_events, snapshot_names.
  rewrite !flat_map_app.
  repeat match goal with |- context [if ?c then _ else _] => destruct c end;
    reflexivity.
Qed.

Lemma passes_loop (l : list Z) (b : Best) :
  weight_modulus args <> 0 ->
  passes (loop_events args env l b) = flat_map pass_events l.
Proof.
  intros Hm. apply Z.eqb_neq in Hm.
  revert b. induction l as [|e l IH]; intros b; [reflexivity|].
  simpl. rewrite Hm. unfold passes in *.
  rewrite filter_app. fold (passes (iteration_events args env e b)).
  rewrite passes_iteration, IH. reflexivity.
Qed.

Lemma rows_loop (l : list Z) (b : Best) :
  appended_rows (loop_events args env l b) =
  if weight_modulus args =? 0 then [] else map (row_of env) l.
Proof.
  revert b. induction l as [|e l IH]; intros b.
  - destruct (weight_modulus args =? 0); reflexivity.
  - simpl. unfold appended_rows in *. rewrite flat_map_app.
    fold (appended_rows (iteration_events args env e b)).
    rewrite rows_iteration.
    destruct (weight_modulus args =? 0) eqn:Hm; [reflexivity|].
    rewrite IH. reflexivity.
Qed.

Lemma snapshots_loop (l : list Z) (b : Best) :
  snapshot_names (loop_events args env l b) =
  if weight_modulus args =? 0 then []
  else map (fun e => epoch_file_name env (e + 1)) (filter (snapshot_due args) l).
Proof.
  revert b. induction l as [|e l IH]; intros b.
  - destruct (weight_modulus args =? 0); reflexivity.
  - simpl. unfold snapshot_names in *. rewrite flat_map_app.
    fold (snapshot_names (iteration_events args env e b)).
    rewrite snapshots_iteration.
    destruct (weight_modulus args =? 0) eqn:Hm; [reflexivity|].
    rewrite IH. destruct (snapshot_due args e); reflexivity.
Qed.

End Loop.

(** ** Before the loop *)

Lemma setup_events_project (evs : list Event) :
  forallb is_setup_event evs = true ->
  passes evs = [] /\ appended_rows evs = [] /\ snapshot_names evs = []
  /\ best_saves evs = [] /\ best_text_writes evs = [].
Proof.
  induction evs as [|e evs IH]; intros H; [repeat split|].
  simpl in H. apply andb_prop in H. destruct H as [He H].
  destruct (IH H) as (H1 & H2 & H3 & H4 & H5).
  unfold passes, appended_rows, snapshot_names, best_saves, best_text_writes in *.
  destruct e; try discriminate; simpl; repeat split; assumption.
Qed.

Ltac run_setup args st :=
  destruct args as [fc nt cw ce rate ep wm dm];
  destruct st as [[od pf wf rf tb log bl ba bt ew] tr bb stp];
  destruct fc, nt, cw, ce, rate, log;
  cbv [main_setup continue_from make_optimizer results_reporting
       bind ret emit modify_files set_best get_best get_files set_lr_stepper
       raise return_ fst snd trace files best lr_stepper
       no_tensorboard force_cpu continue_weights continue_epoch lr
       output_dir params_file weights_folder results_folder tensorboard_dir
       results_file best_loss_file best_acc_file best_text epoch_weights
       mk_output_dir mk_weights_folder mk_results_folder mk_tensorboard_dir
       with_folders with_params_file with_results_file
       resume_consistent start_epoch_of stepper_of].

Lemma main_setup_trace (args : Args) (env : Env) (st : State) :
  exists evs, trace (snd (main_setup args env st)) = trace st ++ evs
              /\ forallb is_setup_event evs = true.
Proof.
  run_setup args st; rewrite <- ?app_assoc; cbn [app];
    eexists; (split; [reflexivity | reflexivity]).
Qed.

Lemma main_setup_outcome (args : Args) (env : Env) (st : State) :
  fst (main_setup args env st) =
  if force_cpu args then
    if resume_consistent args then Done (start_epoch_of args) else Returned
  else Raised (UnboundLocalError "device").
Proof. run_setup args st; reflexivity. Qed.

Lemma main_setup_best (args : Args) (env : Env) (st : State) :
  fst (main_setup args env st) = Done (start_epoch_of args) ->
  best (snd (main_setup args env st)) = initial_best.
Proof. run_setup args st; intros H; try discriminate; reflexivity. Qed.

Lemma main_setup_lr_stepper (args : Args) (env : Env) (st : State) :
  fst (main_setup args env st) = Done (start_epoch_of args) ->
  lr_stepper (snd (main_setup args env st)) =
  match lr args with
  | None => Some (stepper_of args env)
  | Some _ => lr_stepper st
  end.
Proof. run_setup args st; intros H; try discriminate; reflexivity. Qed.

Lemma main_setup_results_file (args : Args) (env : Env) (st : State) :
  results_file (files (snd (main_setup args env st))) =
  match results_file (files st) with
  | Some old => Some old
  | None =>
      match fst (main_setup args env st) with
      | Done _ => Some [map FStr CSV_HEADER]
      | _ => None
      end
  end.
Proof. run_setup args st; reflexivity. Qed.

(** Lines 45-61 create the folders and write the parameters before anything
    is checked; the other files are not touched before the loop. *)
Lemma main_setup_files (args : Args) (env : Env) (st : State) :
  let f' := files (snd (main_setup args env st)) in
  output_dir f' = true /\ params_file f' = Some args
  /\ weights_folder f' = true /\ results_folder f' = true
  /\ tensorboard_dir f' = (negb (no_tensorboard args) || tensorboard_dir (files st))%bool
  /\ best_loss_file f' = best_loss_file (files st)
  /\ best_acc_file f' = best_acc_file (files st)
  /\ best_text f' = best_text (files st)
  /\ epoch_weights f' = epoch_weights (files st).
Proof. run_setup args st; cbv zeta; repeat split. Qed.

(** With one resume argument missing the last thing done is the error
    print. *)
Lemma main_setup_error (args : Args) (env : Env) (st : State) :
  force_cpu args = true -> resume_consistent args = false ->
  exists pre msg,
    trace (snd (main_setup args env st)) = trace st ++ pre ++ [PrintError msg].
Proof.
  run_setup args st; intros H1 H2; try discriminate;
    rewrite <- ?app_assoc; cbn [app];
    match goal with
    | |- exists pre msg, ?t ++ ?l = _ =>
        exists (removelast l);
        match l with context [PrintError ?m] => exists m end
    end; reflexivity.
Qed.

Lemma main_unfold (args : Args) (env : Env) (st : State) :
  main args env st =
  match main_setup args env st with
  | (Done s, st1) =>
      match train_loop args env s st1 with
      | (Done _, st2) => (if no_tensorboard args then ret tt else emit FlushSummary) st2
      | (Returned, st2) => (Returned, st2)
      | (Raised e, st2) => (Raised e, st2)
      end
  | (Returned, st1) => (Returned, st1)
  | (Raised e, st1) => (Raised e, st1)
  end.
Proof. reflexivity. Qed.

(** ** Whole runs *)

Lemma main_stopped_early (args : Args) (env : Env) (st : State) :
  reaches_loop args = false ->
  snd (main args env st) = snd (main_setup args env st)
  /\ fst (main args env st) =
     if force_cpu args then Returned else Raised (UnboundLocalError "device").
Proof.
  unfold reaches_loop. intros H. rewrite main_unfold.
  pose proof (main_setup_outcome args env st) as Ho.
  destruct (main_setup args env st) as [o st1]. simpl in Ho. subst o.
  destruct (force_cpu args), (resume_consistent args); try discriminate;
    split; reflexivity.
Qed.

Lemma main_looped (args : Args) (env : Env) (st : State) :
  reaches_loop args = true ->
  let st1 := snd (main_setup args env st) in
  let r := for_each (loop_epochs args) (epoch_body args env) st1 in
  fst (main args env st) = fst r
  /\ files (snd (main args env st)) = files (snd r)
  /\ best (snd (main args env st)) = best (snd r)
  /\ lr_stepper (snd (main args env st)) = lr_stepper (snd r)
  /\ trace (snd (main args env st)) =
     trace (snd r)
     ++ (match fst r with
         | Done _ => if no_tensorboard args then [] else [FlushSummary]
         | _ => []
         end).
Proof.
  unfold reaches_loop, loop_epochs. intros H. apply andb_prop in H.
  destruct H as [Hf Hc]. rewrite main_unfold. unfold train_loop.
  pose proof (main_setup_outcome args env st) as Ho.
  destruct (main_setup args env st) as [o st1]. simpl in Ho. subst o.
  rewrite Hf, Hc. simpl.
  destruct (for_each (py_range (start_epoch_of args) (epochs args))
                     (epoch_body args env) st1) as [[[]| |e] st2]; simpl;
    try (rewrite app_nil_r; repeat split; reflexivity).
  destruct (no_tensorboard args); unfold_monad; simpl;
    rewrite ?app_nil_r; repeat split; reflexivity.
Qed.

(** The outcome of a run. *)
Lemma run_outcome (args : Args) (env : Env) (f : Files) :
  fst (run args env f) =
  if force_cpu args then
    if resume_consistent args then
      match loop_epochs args with
      | [] => Done tt
      | _ :: _ => if weight_modulus args =? 0 then Raised ZeroDivisionError else Done tt
      end
    else Returned
  else Raised (UnboundLocalError "device").
Proof.
  unfold run. destruct (reaches_loop args) eqn:Hr.
  - destruct (main_looped args env (start_state f) Hr) as (Ho & _).
    rewrite Ho, for_each_outcome.
    unfold reaches_loop in Hr. apply andb_prop in Hr. destruct Hr as [-> ->].
    reflexivity.
  - destruct (main_stopped_early args env (start_state f) Hr) as (_ & Ho).
    rewrite Ho. unfold reaches_loop in Hr.
    destruct (force_cpu args), (resume_consistent args); try discriminate; reflexivity.
Qed.

(** The trace of a run that reaches the loop: the setup, the iterations
    from the sentinel records, the final flush. *)
Lemma run_trace (args : Args) (env : Env) (f : Files) :
  reaches_loop args = true ->
  exists evs fin,
    forallb is_setup_event evs = true
    /\ (fin = [] \/ fin = [FlushSummary])
    /\ trace (snd (run args env f)) =
       evs ++ loop_events args env (loop_epochs args) initial_best ++ fin.
Proof.
  intros Hr. unfold run.
  destruct (main_looped args env (start_state f) Hr) as (_ & _ & _ & _ & Ht).
  destruct (main_setup_trace args env (start_state f)) as (evs & He & Hq).
  pose proof (main_setup_outcome args env (start_state f)) as Ho.
  unfold reaches_loop in Hr. apply andb_prop in Hr. destruct Hr as [Hf Hc].
  rewrite Hf, Hc in Ho. apply main_setup_best in Ho.
  rewrite for_each_trace, He, Ho in Ht. simpl in Ht.
  exists evs. eexists. split; [exact Hq|]. split; [|rewrite Ht, <- app_assoc; reflexivity].
  destruct (fst _) as [[]| |]; [destruct (no_tensorboard args)| |]; auto.
Qed.

Lemma run_trace_stopped (args : Args) (env : Env) (f : Files) :
  reaches_loop args = false ->
  forallb is_setup_event (trace (snd (run args env f))) = true.
Proof.
  intros Hr. unfold run.
  destruct (main_stopped_early args env (start_state f) Hr) as (Hs & _).
  destruct (main_setup_trace args env (start_state f)) as (evs & He & Hq).
  rewrite Hs, He. exact Hq.
Qed.

(** ** [range] *)

Lemma py_range_nil (a b : Z) : b <= a -> py_range a b = [].
Proof.
  intros H. unfold py_range. replace (Z.to_nat (b - a)) with O by lia. reflexivity.
Qed.

Lemma py_range_cons (a b : Z) : a < b -> py_range a b = a :: py_range (a + 1) b.
Proof.
  intros H. unfold py_range.
  replace (Z.to_nat (b - a)) with (S (Z.to_nat (b - (a + 1)))) by lia.
  simpl. f_equal; [lia|].
  rewrite <- seq_shift, map_map. apply map_ext. intros i. lia.
Qed.

Lemma py_range_succ (a b : Z) : map Z.succ (py_range a b) = py_range (a + 1) (b + 1).
Proof.
  unfold py_range. rewrite map_map.
  replace (b + 1 - (a + 1)) with (b - a) by lia.
  apply map_ext. intros i. lia.
Qed.

Lemma py_range_bounds (a b x : Z) : In x (py_range a b) -> a <= x < b.
Proof.
  unfold py_range. rewrite in_map_iff. intros (i & Hi & Hin).
  apply in_seq in Hin. lia.
Qed.

Lemma py_range_increasing (a b : Z) : increasing (py_range a b).
Proof.
  remember (Z.to_nat (b - a)) as n eqn:Hn. revert a Hn.
  induction n as [|n IH]; intros a Hn.
  - rewrite py_range_nil by lia. exact I.
  - rewrite py_range_cons by lia. simpl. split.
    + destruct (Z_lt_le_dec (a + 1) b) as [Hlt|Hle].
      * rewrite py_range_cons by lia. lia.
      * rewrite py_range_nil by lia. exact I.
    + apply IH. lia.
Qed.

(** ** The passes of an epoch *)

Lemma passes_app (l1 l2 : list Event) : passes (l1 ++ l2) = passes l1 ++ passes l2.
Proof. apply filter_app. Qed.

Lemma appended_rows_app (l1 l2 : list Event) :
  appended_rows (l1 ++ l2) = appended_rows l1 ++ appended_rows l2.
Proof. apply flat_map_app. Qed.

Lemma snapshot_names_app (l1 l2 : list Event) :
  snapshot_names (l1 ++ l2) = snapshot_names l1 ++ snapshot_names l2.
Proof. apply flat_map_app. Qed.

(** A run that ends normally reached the loop, and its period is not zero
    unless the loop had nothing to do. *)
Lemma run_completed (args : Args) (env : Env) (f : Files) :
  fst (run args env f) = Done tt ->
  reaches_loop args = true /\ (loop_epochs args = [] \/ weight_modulus args <> 0).
Proof.
  rewrite run_outcome. unfold reaches_loop.
  destruct (force_cpu args); [|discriminate].
  destruct (resume_consistent args); [|discriminate].
  destruct (loop_epochs args); [auto|].
  destruct (weight_modulus args =? 0) eqn:Hm; [discriminate|].
  apply Z.eqb_neq in Hm. auto.
Qed.

Lemma run_passes (args : Args) (env : Env) (f : Files) :
  fst (run args env f) = Done tt ->
  passes (trace (snd (run args env f))) = flat_map pass_events (loop_epochs args).
Proof.
  intros Hd. destruct (run_completed _ _ _ Hd) as [Hr Hm].
  destruct (run_trace args env f Hr) as (evs & fin & Hq & Hfin & Ht).
  rewrite Ht, !passes_app.
  destruct (setup_events_project evs Hq) as (-> & _).
  replace (passes fin) with (@nil Event) by (destruct Hfin; subst; reflexivity).
  rewrite app_nil_r. simpl.
  destruct Hm as [Hnil|Hm].
  - rewrite Hnil. reflexivity.
  - apply passes_loop. exact Hm.
Qed.

(** C2.  The baseline iteration runs the two evaluation passes and no
    training pass; an iteration after it runs one training pass, then the
    evaluation over the train loader, then the evaluation over the test
    loader; a run that ends normally is made of such iterations, and a fresh
    one is the baseline followed by epochs 1 to [epochs]. *)
Theorem C2_epoch_passes (args : Args) (env : Env) :
  (forall st,
      passes (new_events st (snd (epoch_body args env BASELINE_EPOCH st))) =
      [EvalModel TrainLoader; EvalModel TestLoader])
  /\ (forall epoch st,
         epoch > BASELINE_EPOCH ->
         passes (new_events st (snd (epoch_body args env epoch st))) =
         [TrainEpoch (epoch + 1); EvalModel TrainLoader; EvalModel TestLoader])
  /\ (forall f,
         fst (run args env f) = Done tt ->
         passes (trace (snd (run args env f))) =
         flat_map (fun epoch =>
                     if epoch >? BASELINE_EPOCH
                     then [TrainEpoch (epoch + 1); EvalModel TrainLoader;
                           EvalModel TestLoader]
                     else [EvalModel TrainLoader; EvalModel TestLoader])
                  (loop_epochs args))
  /\ (forall f,
         fst (run args env f) = Done tt ->
         continue_epoch args = None -> 0 <= epochs args ->
         passes (trace (snd (run args env f))) =
         [EvalModel TrainLoader; EvalModel TestLoader]
         ++ flat_map (fun n => [TrainEpoch n; EvalModel TrainLoader;
                                EvalModel TestLoader])
                     (py_range 1 (epochs args + 1))).
Proof.
  assert (Hbody : forall epoch st,
    passes (new_events st (snd (epoch_body args env epoch st))) = pass_events epoch).
  { intros epoch st.
    rewrite (new_events_app _ _ _ (epoch_body_trace args env epoch st)).
    apply passes_iteration. }
  assert (Hrun : forall f, fst (run args env f) = Done tt ->
    passes (trace (snd (run args env f))) =
    flat_map (fun epoch =>
                if epoch >? BASELINE_EPOCH
                then [TrainEpoch (epoch + 1); EvalModel TrainLoader; EvalModel TestLoader]
                else [EvalModel TrainLoader; EvalModel TestLoader])
             (loop_epochs args)).
  { intros f Hd. rewrite (run_passes _ _ _ Hd).
    apply flat_map_ext. intros e. unfold pass_events.
    destruct (e >? BASELINE_EPOCH); reflexivity. }
  repeat split.
  - intros st. rewrite Hbody. reflexivity.
  - intros epoch st He. rewrite Hbody. unfold pass_events.
    apply Z.gt_lt, Z.gtb_lt in He. rewrite He. reflexivity.
  - exact Hrun.
  - intros f Hd Hce Hep. rewrite (Hrun f Hd).
    unfold loop_epochs, start_epoch_of. rewrite Hce.
    unfold BASELINE_EPOCH. rewrite (py_range_cons (-1)) by lia.
    replace (-1 + 1) with 0 by lia.
    cbn [flat_map]. replace (-1 >? -1) with false by reflexivity.
    cbn [app]. f_equal. f_equal.
    rewrite <- (py_range_succ 0).
    rewrite !flat_map_concat_map, map_map. f_equal.
    apply map_ext_in. intros e He. apply py_range_bounds in He.
    replace (e >? -1) with true by (symmetry; apply Z.gtb_lt; lia).
    unfold Z.succ. reflexivity.
Qed.

Lemma C2_epoch_passes_witness :
  passes (trace (snd (run Example.fresh_args Example.env Example.empty_files))) =
  [EvalModel TrainLoader; EvalModel TestLoader;
   TrainEpoch 1; EvalModel TrainLoader; EvalModel TestLoader;
   TrainEpoch 2; EvalModel TrainLoader; EvalModel TestLoader;
   TrainEpoch 3; EvalModel TrainLoader; EvalModel TestLoader;
   TrainEpoch 4; EvalModel TrainLoader; EvalModel TestLoader].
Proof.
  exact (proj2 (proj2 (proj2 (C2_epoch_passes Example.fresh_args Example.env)))
               Example.empty_files eq_refl eq_refl ltac:(vm_compute; discriminate)).
Defined.

(** ** Best-metric tracking *)

Lemma track_best_unchanged (epoch : Z) (eval_loss eval_acc : float) (st : State) :
  PyFloat.gt eval_acc (best_eval_acc (best st)) = false ->
  PyFloat.lt eval_loss (best_eval_loss (best st)) = false ->
  track_best epoch eval_loss eval_acc st = (Done tt, st).
Proof.
  intros Ha Hl. unfold track_best, track_acc, track_loss. unfold_monad.
  simpl. rewrite Ha. simpl. rewrite Hl. reflexivity.
Qed.

(** C3.  One observation: the accuracy record, its epoch and the
    best-by-accuracy file change exactly when the accuracy is strictly above
    the record, the loss record, its epoch and the best-by-loss file exactly
    when the loss is strictly below the record, each whatever the other
    does; the saves made are those and no others; an observation equal to
    both records leaves the whole state as it was. *)
Theorem C3_track_best_strict_independent
  (epoch : Z) (eval_loss eval_acc : float) (st : State) :
  let acc_up := PyFloat.gt eval_acc (best_eval_acc (best st)) in
  let loss_up := PyFloat.lt eval_loss (best_eval_loss (best st)) in
  let st' := snd (track_best epoch eval_loss eval_acc st) in
  (best_eval_acc (best st') = (if acc_up then eval_acc else best_eval_acc (best st))
   /\ best_eval_acc_epoch (best st') =
      (if acc_up then epoch + 1 else best_eval_acc_epoch (best st))
   /\ best_acc_file (files st') =
      (if acc_up then Some {| taken_at := epoch |} else best_acc_file (files st)))
  /\ (best_eval_loss (best st') = (if loss_up then eval_loss else best_eval_loss (best st))
      /\ best_eval_loss_epoch (best st') =
         (if loss_up then epoch + 1 else best_eval_loss_epoch (best st))
      /\ best_loss_file (files st') =
         (if loss_up then Some {| taken_at := epoch |} else best_loss_file (files st)))
  /\ best_saves (new_events st st') =
     (if acc_up then [SaveBestAcc {| taken_at := epoch |}] else [])
     ++ (if loss_up then [SaveBestLoss {| taken_at := epoch |}] else [])
  /\ (PyFloat.eq eval_acc (best_eval_acc (best st)) = true ->
      PyFloat.eq eval_loss (best_eval_loss (best st)) = true ->
      st' = st).
Proof.
  intros acc_up loss_up st'.
  pose proof (track_best_best epoch eval_loss eval_acc st) as Hb.
  pose proof (track_best_files epoch eval_loss eval_acc st) as Hf.
  pose proof (track_best_trace epoch eval_loss eval_acc st) as Ht.
  cbv zeta in Hb, Hf, Ht. fold st' in Hb, Hf, Ht. fold acc_up loss_up in Hb, Hf, Ht.
  repeat split.
  - rewrite Hb. reflexivity.
  - rewrite Hb. reflexivity.
  - rewrite Hf. destruct acc_up, loss_up; reflexivity.
  - rewrite Hb. reflexivity.
  - rewrite Hb. reflexivity.
  - rewrite Hf. destruct acc_up, loss_up; reflexivity.
  - rewrite (new_events_app _ _ _ Ht). destruct acc_up, loss_up; reflexivity.
  - intros Ha Hl. subst st'.
    rewrite track_best_unchanged; [reflexivity| |].
    + apply PyFloatFacts.eq_not_gt. exact Ha.
    + apply PyFloatFacts.eq_not_lt. exact Hl.
Qed.

Lemma C3_track_best_witness :
  snd (track_best 3 2 0.5 Example.plateau_state) = Example.plateau_state.
Proof.
  exact (proj2 (proj2 (proj2
           (C3_track_best_strict_independent 3 2 0.5 Example.plateau_state)))
           eq_refl eq_refl).
Defined.

(** ** The best-summary file *)

(** C8.  In every loop iteration the best-summary file is written exactly
    when one of the two metrics improved; what is written is the four lines
    of the records as they stand after the observation, replacing whatever
    the file held; when neither improved the file keeps its content. *)
Theorem C8_best_text_rewritten_iff_improved
  (args : Args) (env : Env) (epoch : Z) (st : State) :
  let improved :=
    (PyFloat.gt (snd (eval_test env epoch)) (best_eval_acc (best st))
     || PyFloat.lt (fst (eval_test env epoch)) (best_eval_loss (best st)))%bool in
  let st' := snd (epoch_body args env epoch st) in
  best_text_writes (new_events st st') =
    (if improved then [best_text_lines (best st')] else [])
  /\ best_text (files st') =
     (if improved then Some (best_text_lines (best st')) else best_text (files st)).
Proof.
  intros improved st'. subst st'. split.
  - rewrite (new_events_app _ _ _ (epoch_body_trace args env epoch st)).
    rewrite epoch_body_best.
    unfold iteration_events, pass_events, tracking_events, closing_events,
      scalars_events, best_text_writes.
    rewrite !flat_map_app. subst improved.
    repeat match goal with |- context [if ?c then _ else _] => destruct c end;
      reflexivity.
  - rewrite epoch_body_best_text, epoch_body_best. reflexivity.
Qed.

(** ** The results log *)

Lemma run_rows (args : Args) (env : Env) (f : Files) :
  appended_rows (trace (snd (run args env f))) =
  if (reaches_loop args && negb (weight_modulus args =? 0))%bool
  then map (row_of env) (loop_epochs args) else [].
Proof.
  destruct (reaches_loop args) eqn:Hr; simpl.
  - destruct (run_trace args env f Hr) as (evs & fin & Hq & Hfin & Ht).
    rewrite Ht, !appended_rows_app.
    destruct (setup_events_project evs Hq) as (_ & -> & _).
    replace (appended_rows fin) with (@nil CsvRecord)
      by (destruct Hfin; subst; reflexivity).
    rewrite app_nil_r. simpl. rewrite rows_loop.
    destruct (weight_modulus args =? 0); reflexivity.
  - pose proof (run_trace_stopped args env f Hr) as Hq.
    destruct (setup_events_project _ Hq) as (_ & -> & _). reflexivity.
Qed.

Lemma run_snapshots (args : Args) (env : Env) (f : Files) :
  snapshot_names (trace (snd (run args env f))) =
  if (reaches_loop args && negb (weight_modulus args =? 0))%bool
  then map (fun e => epoch_file_name env (e + 1))
           (filter (snapshot_due args) (loop_epochs args))
  else [].
Proof.
  destruct (reaches_loop args) eqn:Hr; simpl.
  - destruct (run_trace args env f Hr) as (evs & fin & Hq & Hfin & Ht).
    rewrite Ht, !snapshot_names_app.
    destruct (setup_events_project evs Hq) as (_ & _ & -> & _).
    replace (snapshot_names fin) with (@nil string)
      by (destruct Hfin; subst; reflexivity).
    rewrite app_nil_r. simpl. rewrite snapshots_loop.
    destruct (weight_modulus args =? 0); reflexivity.
  - pose proof (run_trace_stopped args env f Hr) as Hq.
    destruct (setup_events_project _ Hq) as (_ & _ & -> & _). reflexivity.
Qed.

Lemma run_results_file (args : Args) (env : Env) (f : Files) :
  results_file (files (snd (run args env f))) =
  if reaches_loop args then
    Some (match results_file f with Some old => old | None => [map FStr CSV_HEADER] end
          ++ appended_rows (trace (snd (run args env f))))
  else results_file f.
Proof.
  rewrite run_rows. unfold run.
  pose proof (main_setup_results_file args env (start_state f)) as Hs.
  pose proof (main_setup_outcome args env (start_state f)) as Ho.
  destruct (reaches_loop args) eqn:Hr.
  - destruct (main_looped args env (start_state f) Hr) as (_ & Hf & _).
    rewrite Hf. unfold reaches_loop in Hr. apply andb_prop in Hr.
    destruct Hr as [Hc Hk]. rewrite Hc, Hk in Ho. rewrite Ho in Hs. simpl in Hs.
    rewrite (for_each_results_file args env _ _
               (match results_file f with
                | Some old => old | None => [map FStr CSV_HEADER] end)).
    + simpl. destruct (weight_modulus args =? 0); reflexivity.
    + rewrite Hs. destruct (results_file f); reflexivity.
  - destruct (main_stopped_early args env (start_state f) Hr) as (Hf & _).
    rewrite Hf, Hs. unfold reaches_loop in Hr. rewrite Ho. simpl.
    destruct (results_file f); [reflexivity|].
    destruct (force_cpu args), (resume_consistent args); try discriminate; reflexivity.
Qed.

Lemma row_epochs_row_of (env : Env) (l : list Z) :
  row_epochs (map (row_of env) l) = map Z.succ l.
Proof.
  induction l as [|e l IH]; [reflexivity|].
  unfold row_epochs in *. cbn [map flat_map]. rewrite IH. reflexivity.
Qed.

(** C7.  The rows a run appends are one per iteration of its loop, in the
    order of the loop, when it ends normally, and none when it stops before
    the loop or raises in it; their epoch column is strictly increasing; and
    the log after the run is the log before it (or the header, when there
    was none and the loop was reached) followed by these rows. *)
Theorem C7_results_log_append_only (args : Args) (env : Env) (f : Files) :
  let st' := snd (run args env f) in
  let rows := appended_rows (trace st') in
  rows = match fst (run args env f) with
         | Done _ => map (row_of env) (loop_epochs args)
         | _ => []
         end
  /\ row_epochs rows = match fst (run args env f) with
                       | Done _ => map Z.succ (loop_epochs args)
                       | _ => []
                       end
  /\ increasing (row_epochs rows)
  /\ results_file (files st') =
     match results_file f with
     | Some old => Some (old ++ rows)
     | None => if reaches_loop args then Some (map FStr CSV_HEADER :: rows) else None
     end.
Proof.
  intros st' rows.
  assert (Hrows : rows = match fst (run args env f) with
                         | Done _ => map (row_of env) (loop_epochs args)
                         | _ => []
                         end).
  { subst rows st'. rewrite run_rows, run_outcome. unfold reaches_loop.
    destruct (force_cpu args), (resume_consistent args); simpl; try reflexivity.
    destruct (loop_epochs args) eqn:Hl;
      destruct (weight_modulus args =? 0); reflexivity. }
  split; [exact Hrows|]. split; [|split].
  - rewrite Hrows. destruct (fst (run args env f)); try reflexivity.
    apply row_epochs_row_of.
  - rewrite Hrows. destruct (fst (run args env f)); try exact I.
    rewrite row_epochs_row_of. unfold loop_epochs. rewrite py_range_succ.
    apply py_range_increasing.
  - subst rows st'. rewrite run_results_file.
    destruct (reaches_loop args) eqn:Hr, (results_file f) eqn:Hf; try reflexivity.
    pose proof (run_rows args env f) as Hn. rewrite Hr in Hn. simpl in Hn.
    rewrite Hn, app_nil_r. reflexivity.
Qed.

(** ** Numbered snapshots *)

Lemma filter_map_succ (m : Z) (l : list Z) :
  filter (fun n => n mod m =? 0) (map Z.succ l) =
  map Z.succ (filter (fun e => (e + 1) mod m =? 0) l).
Proof.
  induction l as [|e l IH]; [reflexivity|].
  cbn [map filter]. unfold Z.succ at 1.
  destruct ((e + 1) mod m =? 0); cbn [map]; rewrite IH; reflexivity.
Qed.

(** The claim as the spec has it fails: a fresh run of 4 epochs with period
    2 also saves [epoch_0000.pickle], in its baseline iteration. *)
Lemma C4_snapshots_counterexample :
  snapshot_names
    (trace (snd (run Example.fresh_args Example.env Example.empty_files))) =
  ["epoch_0000.pickle"; "epoch_0002.pickle"; "epoch_0004.pickle"]
  /\ snapshot_names
       (trace (snd (run Example.fresh_args Example.env Example.empty_files))) <>
     [epoch_file_name Example.env 2; epoch_file_name Example.env 4].
Proof. split; [vm_compute; reflexivity | vm_compute; discriminate]. Qed.

(** C4 (amended).  In a run that ends normally the numbered snapshots saved
    are, in order, those of the loop iterations whose epoch number (the
    baseline counts, as number 0) is divisible by [weight_modulus], whatever
    the metrics were; a fresh run of 4 epochs with period 2 saves the
    snapshots 0, 2 and 4. *)
Theorem C4_numbered_snapshots (args : Args) (env : Env) (f : Files) :
  fst (run args env f) = Done tt ->
  snapshot_names (trace (snd (run args env f))) =
    map (epoch_file_name env)
        (filter (fun n => n mod weight_modulus args =? 0)
                (map Z.succ (loop_epochs args)))
  /\ (continue_epoch args = None -> epochs args = 4 -> weight_modulus args = 2 ->
      snapshot_names (trace (snd (run args env f))) =
      [epoch_file_name env 0; epoch_file_name env 2; epoch_file_name env 4]).
Proof.
  intros Hd.
  assert (Hs : snapshot_names (trace (snd (run args env f))) =
               map (epoch_file_name env)
                   (filter (fun n => n mod weight_modulus args =? 0)
                           (map Z.succ (loop_epochs args)))).
  { destruct (run_completed _ _ _ Hd) as [Hr Hm].
    rewrite run_snapshots, Hr, filter_map_succ, map_map. simpl.
    destruct Hm as [Hnil|Hm].
    - rewrite Hnil. destruct (weight_modulus args =? 0); reflexivity.
    - apply Z.eqb_neq in Hm. rewrite Hm. simpl. reflexivity. }
  split; [exact Hs|].
  intros Hce Hep Hwm. rewrite Hs. unfold loop_epochs, start_epoch_of.
  rewrite Hce, Hep, Hwm. reflexivity.
Qed.

Lemma C4_numbered_snapshots_witness :
  snapshot_names
    (trace (snd (run Example.resumed_args Example.env Example.prior_files))) =
  ["epoch_0004.pickle"]
  /\ snapshot_names
       (trace (snd (run Example.fresh_args Example.env Example.empty_files))) =
     ["epoch_0000.pickle"; "epoch_0002.pickle"; "epoch_0004.pickle"].
Proof.
  exact (conj
           (proj1 (C4_numbered_snapshots Example.resumed_args Example.env
                                         Example.prior_files eq_refl))
           (proj2 (C4_numbered_snapshots Example.fresh_args Example.env
                                         Example.empty_files eq_refl)
                  eq_refl eq_refl eq_refl)).
Defined.

(** ** A resume argument without the other *)

(** The claim as the spec has it fails: with the weights given and the
    epoch number missing, [main] returns after the error print, but by then
    it has created the output folder and written the parameter file. *)
Lemma C5_half_resume_counterexample :
  let r := run Example.half_resume_args Example.env Example.empty_files in
  fst r = Returned
  /\ output_dir Example.empty_files = false
  /\ output_dir (files (snd r)) = true
  /\ params_file Example.empty_files = None
  /\ params_file (files (snd r)) = Some Example.half_resume_args
  /\ files (snd r) <> Example.empty_files.
Proof.
  cbv zeta. repeat split; try (vm_compute; reflexivity).
  vm_compute. discriminate.
Qed.

(** C5 (amended).  When [device] is assigned and exactly one of the two
    resume arguments is given, [main] prints the configuration error as its
    last action and returns: no pass is run, the results log, the two
    best-weight files, the best-summary file and the numbered snapshots are
    as they were; the output folder, its [weights] and [results] folders,
    the parameter file and, unless disabled, the tensorboard folder have been
    written before the check. *)
Theorem C5_half_resume_stops_before_loop (args : Args) (env : Env) (f : Files) :
  force_cpu args = true ->
  resume_consistent args = false ->
  let r := run args env f in
  let f' := files (snd r) in
  fst r = Returned
  /\ (exists pre msg, trace (snd r) = pre ++ [PrintError msg])
  /\ forallb is_setup_event (trace (snd r)) = true
  /\ passes (trace (snd r)) = []
  /\ (results_file f' = results_file f
      /\ best_loss_file f' = best_loss_file f
      /\ best_acc_file f' = best_acc_file f
      /\ best_text f' = best_text f
      /\ epoch_weights f' = epoch_weights f)
  /\ (output_dir f' = true /\ weights_folder f' = true /\ results_folder f' = true
      /\ params_file f' = Some args
      /\ tensorboard_dir f' = (negb (no_tensorboard args) || tensorboard_dir f)%bool).
Proof.
  intros Hc Hk r f'. subst f' r.
  assert (Hr : reaches_loop args = false).
  { unfold reaches_loop. rewrite Hc, Hk. reflexivity. }
  pose proof (run_trace_stopped args env f Hr) as Hq.
  pose proof (run_results_file args env f) as Hres. rewrite Hr in Hres.
  pose proof (run_outcome args env f) as Ho. rewrite Hc, Hk in Ho.
  unfold run in *.
  destruct (main_stopped_early args env (start_state f) Hr) as (Hs & _).
  destruct (main_setup_error args env (start_state f) Hc Hk) as (pre & msg & Ht).
  destruct (main_setup_files args env (start_state f))
    as (H1 & H2 & H3 & H4 & H5 & H6 & H7 & H8 & H9).
  rewrite Hs in *. simpl in Ht.
  split; [exact Ho|]. split; [exists pre, msg; exact Ht|].
  split; [exact Hq|]. split; [apply (setup_events_project _ Hq)|].
  repeat split; assumption.
Qed.

Lemma C5_half_resume_witness :
  fst (run Example.half_resume_args Example.env Example.prior_files) = Returned
  /\ results_file
       (files (snd (run Example.half_resume_args Example.env Example.prior_files))) =
     results_file Example.prior_files.
Proof.
  pose (H := C5_half_resume_stops_before_loop
               Example.half_resume_args Example.env Example.prior_files
               eq_refl eq_refl).
  exact (conj (proj1 H) (proj1 (proj1 (proj2 (proj2 (proj2 (proj2 H))))))).
Defined.

(** ** The first iteration of a run *)

Lemma run_trace_from_start (args : Args) (env : Env) (f : Files) :
  reaches_loop args = true ->
  start_epoch_of args < epochs args ->
  exists evs fin,
    forallb is_setup_event evs = true
    /\ (fin = [] \/ fin = [FlushSummary])
    /\ trace (snd (run args env f)) =
       evs
       ++ iteration_events args env (start_epoch_of args) initial_best
       ++ (if weight_modulus args =? 0 then []
           else loop_events args env
                  (py_range (start_epoch_of args + 1) (epochs args))
                  (tracked env (start_epoch_of args) initial_best))
       ++ fin.
Proof.
  intros Hr Hlt.
  destruct (run_trace args env f Hr) as (evs & fin & Hq & Hfin & Ht).
  exists evs, fin. split; [exact Hq|]. split; [exact Hfin|].
  rewrite Ht. unfold loop_epochs. rewrite py_range_cons by exact Hlt.
  cbn [loop_events]. rewrite <- !app_assoc. reflexivity.
Qed.

Lemma save_acc_in_iteration (args : Args) (env : Env) (e : Z) (b : Best) (w : Weights) :
  In (SaveBestAcc w) (iteration_events args env e b) <->
  w = {| taken_at := e |}
  /\ PyFloat.gt (snd (eval_test env e)) (best_eval_acc b) = true.
Proof.
  unfold iteration_events, pass_events, tracking_events, closing_events,
    scalars_events.
  rewrite !in_app_iff.
  repeat match goal with |- context [if ?c then _ else _] => destruct c end;
    simpl; split; intros H;
    repeat match goal with
           | H : _ \/ _ |- _ => destruct H
           | H : _ /\ _ |- _ => destruct H
           | H : False |- _ => destruct H
           | H : SaveBestAcc _ = SaveBestAcc _ |- _ => injection H as H; subst
           end;
    try discriminate; try (split; reflexivity); subst; auto 10.
Qed.

Lemma save_loss_in_iteration (args : Args) (env : Env) (e : Z) (b : Best) (w : Weights) :
  In (SaveBestLoss w) (iteration_events args env e b) <->
  w = {| taken_at := e |}
  /\ PyFloat.lt (fst (eval_test env e)) (best_eval_loss b) = true.
Proof.
  unfold iteration_events, pass_events, tracking_events, closing_events,
    scalars_events.
  rewrite !in_app_iff.
  repeat match goal with |- context [if ?c then _ else _] => destruct c end;
    simpl; split; intros H;
    repeat match goal with
           | H : _ \/ _ |- _ => destruct H
           | H : _ /\ _ |- _ => destruct H
           | H : False |- _ => destruct H
           | H : SaveBestLoss _ = SaveBestLoss _ |- _ => injection H as H; subst
           end;
    try discriminate; try (split; reflexivity); subst; auto 10.
Qed.

(** A best-weight save in the loop names an iteration of the loop. *)
Lemma save_in_loop (args : Args) (env : Env) (l : list Z) (b : Best) (w : Weights) :
  In (SaveBestAcc w) (loop_events args env l b)
  \/ In (SaveBestLoss w) (loop_events args env l b) ->
  In (taken_at w) l.
Proof.
  revert b. induction l as [|e l IH]; intros b H.
  - simpl in H. tauto.
  - cbn [loop_events] in H. rewrite !in_app_iff in H.
    destruct H as [[H|H]|[H|H]].
    + apply save_acc_in_iteration in H. destruct H as [-> _]. left. reflexivity.
    + right. destruct (weight_modulus args =? 0); [destruct H|].
      apply (IH _ (or_introl H)).
    + apply save_loss_in_iteration in H. destruct H as [-> _]. left. reflexivity.
    + right. destruct (weight_modulus args =? 0); [destruct H|].
      apply (IH _ (or_intror H)).
Qed.

Lemma no_save_in_setup (evs : list Event) (w : Weights) :
  forallb is_setup_event evs = true ->
  ~ In (SaveBestAcc w) evs /\ ~ In (SaveBestLoss w) evs.
Proof.
  intros Hq. rewrite forallb_forall in Hq.
  split; intros Hin; apply Hq in Hin; discriminate.
Qed.

(** Whether the first iteration of a run saves a best-weight file is
    decided against the sentinels. *)
Lemma first_iteration_saves (args : Args) (env : Env) (f : Files) :
  reaches_loop args = true ->
  start_epoch_of args < epochs args ->
  let tr := trace (snd (run args env f)) in
  let s := start_epoch_of args in
  (In (SaveBestAcc {| taken_at := s |}) tr <->
   PyFloat.gt (snd (eval_test env s)) 0 = true)
  /\ (In (SaveBestLoss {| taken_at := s |}) tr <->
      PyFloat.lt (fst (eval_test env s)) PyFloat.inf = true).
Proof.
  intros Hr Hlt tr s. subst tr s.
  destruct (run_trace_from_start args env f Hr Hlt) as (evs & fin & Hq & Hfin & Ht).
  rewrite Ht. clear Ht.
  assert (Hrest : forall w,
    In (SaveBestAcc w)
       ((if weight_modulus args =? 0 then []
         else loop_events args env (py_range (start_epoch_of args + 1) (epochs args))
                (tracked env (start_epoch_of args) initial_best)) ++ fin)
    \/ In (SaveBestLoss w)
       ((if weight_modulus args =? 0 then []
         else loop_events args env (py_range (start_epoch_of args + 1) (epochs args))
                (tracked env (start_epoch_of args) initial_best)) ++ fin) ->
    start_epoch_of args < taken_at w).
  { intros w H. rewrite !in_app_iff in H.
    assert (Hfin' : ~ In (SaveBestAcc w) fin /\ ~ In (SaveBestLoss w) fin).
    { destruct Hfin; subst; simpl; split; intros H'; intuition discriminate. }
    destruct (weight_modulus args =? 0); [simpl in H; tauto|].
    assert (Hin : In (taken_at w)
                     (py_range (start_epoch_of args + 1) (epochs args))).
    { apply (save_in_loop args env _ (tracked env (start_epoch_of args) initial_best)).
      tauto. }
    apply py_range_bounds in Hin. lia. }
  destruct (no_save_in_setup evs {| taken_at := start_epoch_of args |} Hq) as [Hn1 Hn2].
  split; rewrite in_app_iff, in_app_iff.
  - rewrite save_acc_in_iteration. simpl. split.
    + intros [H|[H|H]]; [tauto|tauto|].
      specialize (Hrest _ (or_introl H)). simpl in Hrest. lia.
    + intros H. right. left. split; [reflexivity|exact H].
  - rewrite save_loss_in_iteration. simpl. split.
    + intros [H|[H|H]]; [tauto|tauto|].
      specialize (Hrest _ (or_intror H)). simpl in Hrest. lia.
    + intros H. right. left. split; [reflexivity|exact H].
Qed.

(** The iteration after the first is decided against the records the first
    one left. *)
Lemma second_iteration_saves (args : Args) (env : Env) (f : Files) :
  reaches_loop args = true ->
  start_epoch_of args + 1 < epochs args ->
  weight_modulus args <> 0 ->
  let tr := trace (snd (run args env f)) in
  let s := start_epoch_of args in
  let b := tracked env s initial_best in
  (In (SaveBestAcc {| taken_at := s + 1 |}) tr <->
   PyFloat.gt (snd (eval_test env (s + 1))) (best_eval_acc b) = true)
  /\ (In (SaveBestLoss {| taken_at := s + 1 |}) tr <->
      PyFloat.lt (fst (eval_test env (s + 1))) (best_eval_loss b) = true).
Proof.
  intros Hr Hlt Hm tr s b. subst tr.
  assert (Hlt0 : start_epoch_of args < epochs args) by lia.
  destruct (run_trace_from_start args env f Hr Hlt0) as (evs & fin & Hq & Hfin & Ht).
  rewrite Ht. clear Ht. apply Z.eqb_neq in Hm. rewrite Hm.
  rewrite (py_range_cons (start_epoch_of args + 1)) by exact Hlt.
  cbn [loop_events]. rewrite Hm. fold s. fold b.
  set (rest := loop_events args env (py_range (s + 1 + 1) (epochs args))
                           (tracked env (s + 1) b)).
  assert (Hrest : forall w,
    In (SaveBestAcc w) rest \/ In (SaveBestLoss w) rest -> s + 1 < taken_at w).
  { intros w H. apply save_in_loop in H. apply py_range_bounds in H. lia. }
  assert (Hfin' : forall w, ~ In (SaveBestAcc w) fin /\ ~ In (SaveBestLoss w) fin).
  { intros w. destruct Hfin; subst fin; simpl; split; intros H'; intuition discriminate. }
  destruct (no_save_in_setup evs {| taken_at := s + 1 |} Hq) as [Hn1 Hn2].
  destruct (Hfin' {| taken_at := s + 1 |}) as [Hf1 Hf2].
  split; rewrite !in_app_iff, !save_acc_in_iteration || rewrite !in_app_iff, !save_loss_in_iteration.
  - split.
    + intros [H|[[H _]|[[[_ H]|H]|H]]]; try tauto.
      * injection H as H. lia.
      * specialize (Hrest _ (or_introl H)). simpl in Hrest. lia.
    + intros H. right. right. left. left. split; [reflexivity|exact H].
  - split.
    + intros [H|[[H _]|[[[_ H]|H]|H]]]; try tauto.
      * injection H as H. lia.
      * specialize (Hrest _ (or_intror H)). simpl in Hrest. lia.
    + intros H. right. right. left. left. split; [reflexivity|exact H].
Qed.

(** ** A fresh run *)

(** The claim as the spec has it fails.  In a fresh run whose held-out
    metrics are best at the baseline, the two best-weight files are saved in
    the baseline iteration (the weights taken at loop variable -1) and
    never in epoch 1; and when the baseline accuracy is 0 and the loss
    infinite throughout, no best-weight file is saved at all. *)
Lemma C6_first_epoch_counterexample :
  let tr := trace (snd (run Example.fresh_args Example.env Example.empty_files)) in
  let tr0 := trace (snd (run Example.fresh_args Example.flat_env Example.empty_files)) in
  In (TrainEpoch 1) tr
  /\ best_saves tr = [SaveBestAcc {| taken_at := -1 |}; SaveBestLoss {| taken_at := -1 |}]
  /\ ~ In (SaveBestAcc {| taken_at := 0 |}) tr
  /\ ~ In (SaveBestLoss {| taken_at := 0 |}) tr
  /\ In (TrainEpoch 1) tr0
  /\ best_saves tr0 = [].
Proof.
  cbv zeta.
  split; [vm_compute; auto 20|].
  split; [vm_compute; reflexivity|].
  split; [vm_compute; intros H;
          repeat (destruct H as [H|H]; [discriminate H|]); exact H|].
  split; [vm_compute; intros H;
          repeat (destruct H as [H|H]; [discriminate H|]); exact H|].
  split; [vm_compute; auto 20|].
  vm_compute; reflexivity.
Qed.

(** C6 (amended).  The first observation of a fresh run is that of the
    baseline iteration, which evaluates without training; it is compared
    with the sentinels, so the best-by-accuracy file is saved there exactly
    when the accuracy is above 0 and the best-by-loss file exactly when the
    loss is below +infinity.  Epoch 1 saves a file exactly when it strictly
    improves on the record the baseline left. *)
Theorem C6_fresh_run_first_observation (args : Args) (env : Env) (f : Files) :
  force_cpu args = true ->
  continue_weights args = None ->
  continue_epoch args = None ->
  -1 < epochs args ->
  let tr := trace (snd (run args env f)) in
  let base_loss := fst (eval_test env BASELINE_EPOCH) in
  let base_acc := snd (eval_test env BASELINE_EPOCH) in
  firstn 2 (passes tr) = [EvalModel TrainLoader; EvalModel TestLoader]
  /\ (In (SaveBestAcc {| taken_at := BASELINE_EPOCH |}) tr <->
      PyFloat.gt base_acc 0 = true)
  /\ (In (SaveBestLoss {| taken_at := BASELINE_EPOCH |}) tr <->
      PyFloat.lt base_loss PyFloat.inf = true)
  /\ (0 < epochs args -> weight_modulus args <> 0 ->
      (In (SaveBestAcc {| taken_at := 0 |}) tr <->
       PyFloat.gt (snd (eval_test env 0))
                  (if PyFloat.gt base_acc 0 then base_acc else 0%float) = true)
      /\ (In (SaveBestLoss {| taken_at := 0 |}) tr <->
          PyFloat.lt (fst (eval_test env 0))
                     (if PyFloat.lt base_loss PyFloat.inf then base_loss
                      else PyFloat.inf) = true)).
Proof.
  intros Hc Hw He Hep tr base_loss base_acc.
  assert (Hr : reaches_loop args = true).
  { unfold reaches_loop, resume_consistent. rewrite Hc, Hw, He. reflexivity. }
  assert (Hs : start_epoch_of args = BASELINE_EPOCH).
  { unfold start_epoch_of. rewrite He. reflexivity. }
  assert (Hlt : start_epoch_of args < epochs args).
  { rewrite Hs. exact Hep. }
  pose proof (first_iteration_saves args env f Hr Hlt) as Hfirst.
  cbv zeta in Hfirst. rewrite Hs in Hfirst. destruct Hfirst as [Hfa Hfl].
  split; [|split; [exact Hfa|split; [exact Hfl|]]].
  - subst tr.
    destruct (run_trace_from_start args env f Hr Hlt) as (evs & fin & Hq & _ & Ht).
    rewrite Ht, !passes_app.
    destruct (setup_events_project evs Hq) as (-> & _).
    rewrite passes_iteration, Hs. reflexivity.
  - intros Hep1 Hm.
    assert (Hlt1 : start_epoch_of args + 1 < epochs args).
    { rewrite Hs. unfold BASELINE_EPOCH. lia. }
    pose proof (second_iteration_saves args env f Hr Hlt1 Hm) as Hsecond.
    cbv zeta in Hsecond. rewrite Hs in Hsecond.
    exact Hsecond.
Qed.

Lemma C6_fresh_run_witness :
  In (SaveBestAcc {| taken_at := BASELINE_EPOCH |})
     (trace (snd (run Example.fresh_args Example.env Example.empty_files)))
  /\ ~ In (SaveBestAcc {| taken_at := 0 |})
          (trace (snd (run Example.fresh_args Example.env Example.empty_files))).
Proof.
  exact (let H := C6_fresh_run_first_observation
                    Example.fresh_args Example.env Example.empty_files
                    eq_refl eq_refl eq_refl eq_refl in
         conj (proj2 (proj1 (proj2 H)) eq_refl)
              (fun Hin =>
                 Bool.diff_false_true
                   (proj1 (proj1 (proj2 (proj2 (proj2 H)) eq_refl
                                        (Z.neq_sym _ _ (Z.lt_neq 0 2 eq_refl))))
                          Hin))).
Defined.

(** ** A resumed run *)

Lemma resumed_reaches_loop (args : Args) (w : string) (E : Z) :
  force_cpu args = true ->
  continue_weights args = Some w ->
  continue_epoch args = Some E ->
  reaches_loop args = true /\ start_epoch_of args = E.
Proof.
  intros Hc Hw He. unfold reaches_loop, resume_consistent, start_epoch_of.
  rewrite Hc, Hw, He. split; reflexivity.
Qed.

(** The claim as the spec has it fails.  A run resumed from epoch 2 whose
    first epoch has held-out accuracy 0 and an infinite loss saves no
    best-weight file: the files of the prior run stay. *)
Lemma C10_resumed_overwrite_counterexample :
  let r := run Example.resumed_args Example.flat_env Example.prior_files in
  passes (trace (snd r)) =
    [TrainEpoch 3; EvalModel TrainLoader; EvalModel TestLoader;
     TrainEpoch 4; EvalModel TrainLoader; EvalModel TestLoader]
  /\ best_saves (trace (snd r)) = []
  /\ best_acc_file (files (snd r)) = best_acc_file Example.prior_files
  /\ best_loss_file (files (snd r)) = best_loss_file Example.prior_files.
Proof.
  cbv zeta.
  split; [vm_compute; reflexivity|].
  split; [vm_compute; reflexivity|].
  split; vm_compute; reflexivity.
Qed.

(** C10 (amended).  A resumed run enters its loop with the best records at
    their sentinels, whatever the output folder holds from the prior run;
    so its first epoch saves the best-by-accuracy file exactly when its
    accuracy is above 0 and the best-by-loss file exactly when its loss is
    below +infinity, however good the records of the prior run were. *)
Theorem C10_resumed_run_sentinels
  (args : Args) (env : Env) (f : Files) (w : string) (E : Z) :
  force_cpu args = true ->
  continue_weights args = Some w ->
  continue_epoch args = Some E ->
  E < epochs args ->
  let tr := trace (snd (run args env f)) in
  (fst (main_setup args env (start_state f)) = Done E
   /\ best (snd (main_setup args env (start_state f))) = initial_best)
  /\ (In (SaveBestAcc {| taken_at := E |}) tr <->
      PyFloat.gt (snd (eval_test env E)) 0 = true)
  /\ (In (SaveBestLoss {| taken_at := E |}) tr <->
      PyFloat.lt (fst (eval_test env E)) PyFloat.inf = true).
Proof.
  intros Hc Hw He Hlt tr.
  destruct (resumed_reaches_loop args w E Hc Hw He) as [Hr Hs].
  assert (Ho : fst (main_setup args env (start_state f)) = Done (start_epoch_of args)).
  { rewrite main_setup_outcome. unfold reaches_loop in Hr.
    apply andb_prop in Hr. destruct Hr as [-> ->]. reflexivity. }
  split.
  - split; [rewrite Ho, Hs; reflexivity|]. apply main_setup_best. exact Ho.
  - assert (Hlt' : start_epoch_of args < epochs args) by (rewrite Hs; exact Hlt).
    pose proof (first_iteration_saves args env f Hr Hlt') as Hfirst.
    cbv zeta in Hfirst. rewrite Hs in Hfirst. exact Hfirst.
Qed.

Lemma C10_resumed_run_witness :
  In (SaveBestAcc {| taken_at := 2 |})
     (trace (snd (run Example.resumed_args Example.env Example.prior_files))).
Proof.
  exact (proj2 (proj1 (proj2 (C10_resumed_run_sentinels
                                Example.resumed_args Example.env Example.prior_files
                                "weights/epoch_0002.pickle" 2
                                eq_refl eq_refl eq_refl eq_refl)))
               eq_refl).
Defined.

(** ** Resumption and the schedule *)

Lemma run_lr_stepper (args : Args) (env : Env) (f : Files) :
  reaches_loop args = true ->
  lr_stepper (snd (run args env f)) =
  match lr args with
  | None => Some (stepper_of args env)
  | Some _ => None
  end.
Proof.
  intros Hr. unfold run.
  destruct (main_looped args env (start_state f) Hr) as (_ & _ & _ & Hl & _).
  rewrite Hl, for_each_lr_stepper. unfold reaches_loop in Hr.
  apply andb_prop in Hr. destruct Hr as [Hc Hk].
  rewrite main_setup_lr_stepper.
  - destruct (lr args); reflexivity.
  - rewrite main_setup_outcome, Hc, Hk. reflexivity.
Qed.

(** C1.  A run resumed from epoch [E] with the weights of that epoch starts
    its loop at epoch [E+1]: its first pass is the training pass of epoch
    [E+1] and its first row is that of epoch [E+1].  With the schedule in
    use, its step tracker starts at [E] times the number of batches per
    epoch where that of the uninterrupted run starts at 0, so at every step
    of the resumed run, the first one included, the schedule gives what it
    gives the uninterrupted run at the same global step. *)
Theorem C1_resume_epoch_and_schedule
  (args : Args) (env : Env) (f : Files) (w : string) (E : Z) :
  force_cpu args = true ->
  continue_weights args = Some w ->
  continue_epoch args = Some E ->
  E < epochs args ->
  let st' := snd (run args env f) in
  (0 <= E -> hd_error (passes (trace st')) = Some (TrainEpoch (E + 1)))
  /\ (weight_modulus args <> 0 ->
      hd_error (row_epochs (appended_rows (trace st'))) = Some (E + 1))
  /\ (lr args = None ->
      exists t t0,
        lr_stepper st' = Some t
        /\ lr_stepper (snd (run (without_resume args) env f)) = Some t0
        /\ init_steps t = E * len_train_loader env
        /\ init_steps t0 = 0
        /\ forall k,
             LrStepTracker_step t k =
             LrStepTracker_step t0 (E * len_train_loader env + k)).
Proof.
  intros Hc Hw He Hlt st'. subst st'.
  destruct (resumed_reaches_loop args w E Hc Hw He) as [Hr Hs].
  assert (Hlt' : start_epoch_of args < epochs args) by (rewrite Hs; exact Hlt).
  split; [|split].
  - intros HE.
    destruct (run_trace_from_start args env f Hr Hlt') as (evs & fin & Hq & _ & Ht).
    rewrite Ht, !passes_app.
    destruct (setup_events_project evs Hq) as (-> & _).
    rewrite passes_iteration, Hs. unfold pass_events.
    replace (E >? BASELINE_EPOCH) with true
      by (symmetry; apply Z.gtb_lt; unfold BASELINE_EPOCH; lia).
    reflexivity.
  - intros Hm. rewrite run_rows, Hr. apply Z.eqb_neq in Hm. rewrite Hm. simpl.
    unfold loop_epochs. rewrite py_range_cons by exact Hlt'. rewrite Hs. reflexivity.
  - intros Hlr.
    assert (Hr0 : reaches_loop (without_resume args) = true).
    { unfold reaches_loop, resume_consistent. simpl. rewrite Hc. reflexivity. }
    exists (stepper_of args env), (stepper_of (without_resume args) env).
    rewrite (run_lr_stepper args env f Hr), Hlr.
    rewrite (run_lr_stepper _ env f Hr0). simpl. rewrite Hlr.
    repeat split.
    + unfold stepper_of. rewrite He. reflexivity.
    + intros k. unfold LrStepTracker_step, stepper_of. simpl. rewrite He.
      replace (E * len_train_loader env + k + 0) with (k + E * len_train_loader env)
        by lia.
      reflexivity.
Qed.

Lemma C1_resume_witness :
  hd_error (passes (trace (snd (run Example.resumed_args Example.env
                                    Example.prior_files)))) =
  Some (TrainEpoch 3)
  /\ hd_error (row_epochs (appended_rows
        (trace (snd (run Example.resumed_args Example.env Example.prior_files))))) =
     Some 3
  /\ exists t t0,
       lr_stepper (snd (run Example.resumed_args Example.env Example.prior_files)) =
       Some t
       /\ lr_stepper (snd (run (without_resume Example.resumed_args) Example.env
                               Example.prior_files)) = Some t0
       /\ init_steps t = 8
       /\ init_steps t0 = 0
       /\ forall k, LrStepTracker_step t k = LrStepTracker_step t0 (8 + k).
Proof.
  exact (let H := C1_resume_epoch_and_schedule
                    Example.resumed_args Example.env Example.prior_files
                    "weights/epoch_0002.pickle" 2
                    eq_refl eq_refl eq_refl eq_refl in
         conj (proj1 H (Z.lt_le_incl 0 2 eq_refl))
              (conj (proj1 (proj2 H) (Z.neq_sym _ _ (Z.lt_neq 0 2 eq_refl)))
                    (proj2 (proj2 H) eq_refl))).
Defined.

(** ** Preprocessing stops at an unknown split label *)

Module PreprocessFacts.

Import Preprocess.

Lemma split_dir_recognized (piece : Piece) :
  recognized piece <-> split_dir (split piece) <> None.
Proof.
  unfold recognized, split_dir.
  destruct (String.eqb_spec (split piece) "train") as [H1|H1];
    [split; [discriminate|auto]|].
  destruct (String.eqb_spec (split piece) "validation") as [H2|H2];
    [split; [discriminate|auto]|].
  destruct (String.eqb_spec (split piece) "test") as [H3|H3];
    [split; [discriminate|auto]|].
  split; [intros [H|[H|H]]; contradiction | intros H; contradiction].
Qed.

Lemma dumps_app (l1 l2 : list Event) : dumps (l1 ++ l2) = dumps l1 ++ dumps l2.
Proof. apply flat_map_app. Qed.

Lemma encoded_app (l1 l2 : list Event) : encoded (l1 ++ l2) = encoded l1 ++ encoded l2.
Proof. apply flat_map_app. Qed.

Lemma dump_of_length (maestro_root : string) (pre : list Piece) :
  Forall recognized pre ->
  List.length (flat_map (dump_of maestro_root) pre) = List.length pre.
Proof.
  intros Hpre. induction Hpre as [|p pre Hp Hpre IH]; [reflexivity|].
  cbn [flat_map]. rewrite length_app, IH. unfold dump_of.
  apply split_dir_recognized in Hp.
  destruct (split_dir (split p)); [reflexivity|contradiction].
Qed.

Lemma pieces_loop_stops (maestro_root : string) (n : Z)
      (pre : list Piece) (bad : Piece) (post : list Piece) (c : Counts) :
  Forall recognized pre ->
  ~ recognized bad ->
  let r := pieces_loop maestro_root n (pre ++ bad :: post) c in
  fst r = false
  /\ dumps (snd r) = flat_map (dump_of maestro_root) pre
  /\ encoded (snd r) =
     map (fun p => path_join maestro_root (midi_filename p)) pre
  /\ exists evs, snd r = evs ++ [PrintUnrecognized (split bad)].
Proof.
  intros Hpre Hbad. revert c.
  induction Hpre as [|p pre Hp Hpre IH]; intros c.
  - cbn [app pieces_loop].
    rewrite split_dir_recognized in Hbad.
    destruct (split_dir (split bad)) as [d|]; [exfalso; apply Hbad; discriminate|].
    cbn. repeat split. exists []. reflexivity.
  - cbn [app pieces_loop flat_map map]. unfold dump_of at 1.
    apply split_dir_recognized in Hp.
    destruct (split_dir (split p)) as [d|]; [|contradiction].
    specialize (IH (count_total (count d c))). cbv zeta in IH.
    destruct (pieces_loop maestro_root n (pre ++ bad :: post)
                          (count_total (count d c))) as [r evs].
    cbn [fst snd] in *. destruct IH as (Hr & Hd & He & evs' & Hev).
    split; [exact Hr|].
    assert (Hprog : forall b : bool,
      dumps (if b then [PrintProgress (total_count (count_total (count d c))) n]
             else []) = []
      /\ encoded (if b then [PrintProgress (total_count (count_total (count d c))) n]
                  else []) = []).
    { intros []; split; reflexivity. }
    split; [|split].
    + cbn [app]. unfold dumps at 1. cbn [flat_map app].
      fold (dumps ((if total_count (count_total (count d c)) mod 50 =? 0
                    then [PrintProgress (total_count (count_total (count d c))) n]
                    else []) ++ evs)).
      rewrite dumps_app, (proj1 (Hprog _)), Hd. reflexivity.
    + cbn [app]. unfold encoded at 1. cbn [flat_map app].
      fold (encoded ((if total_count (count_total (count d c)) mod 50 =? 0
                      then [PrintProgress (total_count (count_total (count d c))) n]
                      else []) ++ evs)).
      rewrite encoded_app, (proj2 (Hprog _)), He. reflexivity.
    + rewrite Hev.
      exists ([EncodeMidi (path_join maestro_root (midi_filename p));
               Dump d (last_piece (path_join maestro_root (midi_filename p))
                                  EmptyString ++ ".pickle")%string
                    (path_join maestro_root (midi_filename p))]
              ++ (if total_count (count_total (count d c)) mod 50 =? 0
                  then [PrintProgress (total_count (count_total (count d c))) n]
                  else [])
              ++ evs').
      rewrite <- !app_assoc. reflexivity.
Qed.

Lemma prep_stops_at
  (maestro_root : string) (pre : list Piece) (bad : Piece) (post : list Piece) :
  Forall recognized pre ->
  ~ recognized bad ->
  let r := prep_maestro_midi maestro_root (Some (pre ++ bad :: post)) in
  fst r = false
  /\ (exists evs, snd r = evs ++ [PrintUnrecognized (split bad)])
  /\ dumps (snd r) = flat_map (dump_of maestro_root) pre
  /\ List.length (dumps (snd r)) = List.length pre
  /\ encoded (snd r) = map (fun p => path_join maestro_root (midi_filename p)) pre.
Proof.
  intros Hpre Hbad r. subst r. unfold prep_maestro_midi.
  pose proof (pieces_loop_stops maestro_root
                (Z.of_nat (List.length (pre ++ bad :: post))) pre bad post
                {| total_count := 0; train_count := 0; val_count := 0; test_count := 0 |}
                Hpre Hbad) as H.
  cbv zeta in H.
  destruct (pieces_loop maestro_root (Z.of_nat (List.length (pre ++ bad :: post)))
                        (pre ++ bad :: post)
                        {| total_count := 0; train_count := 0;
                           val_count := 0; test_count := 0 |}) as [res evs].
  cbn [fst snd] in *. destruct H as (Hr & Hd & He & evs' & Hev).
  split; [exact Hr|]. split; [|split; [|split]].
  - rewrite Hev.
    exists ([Mkdir "output_dir"; Mkdir "train"; Mkdir "val"; Mkdir "test"]
            ++ [PrintFound (Z.of_nat (List.length (pre ++ bad :: post)))] ++ evs').
    rewrite <- !app_assoc. reflexivity.
  - rewrite dumps_app, dumps_app, Hd. reflexivity.
  - rewrite dumps_app, dumps_app, Hd. cbn [dumps flat_map app].
    apply dump_of_length. exact Hpre.
  - rewrite encoded_app, encoded_app, He. reflexivity.
Qed.

(** A list with an unrecognized piece has a first one. *)
Lemma first_unrecognized (pieces : list Piece) :
  Exists (fun p => ~ recognized p) pieces ->
  exists pre bad post,
    pieces = pre ++ bad :: post /\ Forall recognized pre /\ ~ recognized bad.
Proof.
  induction pieces as [|p pieces IH]; intros H.
  - inversion H.
  - destruct (split_dir (split p)) as [d|] eqn:Hd.
    + assert (Hp : recognized p).
      { apply split_dir_recognized. rewrite Hd. discriminate. }
      inversion H as [? ? Hn|? ? Hex]; subst; [contradiction|].
      destruct (IH Hex) as (pre & bad & post & -> & Hpre & Hbad).
      exists (p :: pre), bad, post. repeat split; [constructor; assumption|exact Hbad].
    + exists [], p, pieces. repeat split; [constructor|].
      rewrite split_dir_recognized, Hd. intros Hn. apply Hn. reflexivity.
Qed.

(** C9.  When the piece list holds a piece whose split label is none of
    "train", "validation" and "test", [prep_maestro_midi] returns False; the
    last thing it does is the error print naming the label of the first such
    piece; the pieces before it are encoded and written, one file each, in
    order, and neither that piece nor any piece after it is. *)
Theorem C9_unrecognized_split_stops (maestro_root : string) (pieces : list Piece) :
  Exists (fun p => ~ recognized p) pieces ->
  let r := prep_maestro_midi maestro_root (Some pieces) in
  exists pre bad post,
    pieces = pre ++ bad :: post
    /\ Forall recognized pre
    /\ ~ recognized bad
    /\ fst r = false
    /\ (exists evs, snd r = evs ++ [PrintUnrecognized (split bad)])
    /\ dumps (snd r) = flat_map (dump_of maestro_root) pre
    /\ List.length (dumps (snd r)) = List.length pre
    /\ encoded (snd r) = map (fun p => path_join maestro_root (midi_filename p)) pre.
Proof.
  intros Hex r. subst r.
  destruct (first_unrecognized pieces Hex) as (pre & bad & post & -> & Hpre & Hbad).
  exists pre, bad, post.
  split; [reflexivity|]. split; [exact Hpre|]. split; [exact Hbad|].
  apply prep_stops_at; assumption.
Qed.

Lemma C9_unrecognized_split_witness :
  exists pre bad post,
    example_pieces = pre ++ bad :: post
    /\ Forall recognized pre
    /\ ~ recognized bad
    /\ fst (prep_maestro_midi "maestro" (Some example_pieces)) = false
    /\ (exists evs, snd (prep_maestro_midi "maestro" (Some example_pieces)) =
                    evs ++ [PrintUnrecognized (split bad)])
    /\ dumps (snd (prep_maestro_midi "maestro" (Some example_pieces))) =
       flat_map (dump_of "maestro") pre
    /\ List.length (dumps (snd (prep_maestro_midi "maestro" (Some example_pieces)))) =
       List.length pre
    /\ encoded (snd (prep_maestro_midi "maestro" (Some example_pieces))) =
       map (fun p => path_join "maestro" (midi_filename p)) pre.
Proof.
  apply (C9_unrecognized_split_stops "maestro" example_pieces).
  unfold example_pieces.
  apply Exists_cons_tl, Exists_cons_tl, Exists_cons_hd.
  unfold recognized. simpl. intros [H|[H|H]]; discriminate H.
Defined.

(** The run over the example pieces, computed: two files written, the third piece
    stops the function, the fourth is never looked at. *)
Example prep_example_run :
  prep_maestro_midi "maestro" (Some example_pieces) =
  (false,
   [Mkdir "output_dir"; Mkdir "train"; Mkdir "val"; Mkdir "test"; PrintFound 4;
    EncodeMidi "maestro/2004/a.midi";
    Dump TrainDir "a.midi.pickle" "maestro/2004/a.midi";
    EncodeMidi "maestro/2006/b.midi";
    Dump ValDir "b.midi.pickle" "maestro/2006/b.midi";
    PrintUnrecognized "dev"]).
Proof. vm_compute. reflexivity. Qed.

End PreprocessFacts.

(** ** Two runs, computed *)

(** A fresh run of 4 epochs with period 2 over an empty folder: five rows
    under the header, numbered 0 to 4. *)
Example fresh_run_log :
  fst (run Example.fresh_args Example.env Example.empty_files) = Done tt
  /\ results_file (files (snd (run Example.fresh_args Example.env
                                   Example.empty_files))) =
     Some [map FStr CSV_HEADER;
           result_row 0 0.125 2 0.5 2 0.5;
           result_row 1 0.125 2 0.5 3 0.25;
           result_row 2 0.125 2 0.5 3 0.25;
           result_row 3 0.125 2 0.5 3 0.25;
           result_row 4 0.125 2 0.5 3 0.25].
Proof. split; vm_compute; reflexivity. Qed.

(** The same run continued from epoch 2 over the folder of the prior run:
    the rows 3 and 4 go after the four lines that were there, and the step
    tracker starts at 2 * 4. *)
Example resumed_run_log :
  results_file (files (snd (run Example.resumed_args Example.env
                                Example.prior_files))) =
  Some [map FStr CSV_HEADER;
        result_row 0 0.125 4 0.125 4 0.125;
        result_row 1 0.125 2 0.5 2 0.5;
        result_row 2 0.125 2 0.5 3 0.25;
        result_row 3 0.125 2 0.5 3 0.25;
        result_row 4 0.125 2 0.5 3 0.25]
  /\ lr_stepper (snd (run Example.resumed_args Example.env Example.prior_files)) =
     Some {| model_dim := 512; warmup_steps := 4000; init_steps := 8 |}.
Proof. split; vm_compute; reflexivity. Qed.

(** Without [--force_cpu] the name [device] is read before it is assigned:
    the run raises after the folders were made and before the resume
    arguments are looked at. *)
Example run_without_force_cpu :
  fst (run (Build_Args false true None None None 4 2 512)
           Example.env Example.empty_files) =
  Raised (UnboundLocalError "device").
Proof. vm_compute. reflexivity. Qed.

(** A zero [weight_modulus] raises in the first iteration, after its passes
    and before its row. *)
Example run_with_zero_modulus :
  let r := run (Build_Args true true None None None 4 0 512)
               Example.env Example.empty_files in
  fst r = Raised ZeroDivisionError
  /\ passes (trace (snd r)) = [EvalModel TrainLoader; EvalModel TestLoader]
  /\ appended_rows (trace (snd r)) = [].
Proof. cbv zeta. split; [|split]; vm_compute; reflexivity. Qed.

(** ** Further properties of [train.py] *)

Ltac run_setup_explicit args st :=
  destruct args as [fc nt cw ce rate ep wm dm];
  destruct st as [[od pf wf rf tb log bl ba bt ew] tr bb stp];
  destruct fc, nt, cw, ce, rate, log;
  cbv [main_setup continue_from make_optimizer results_reporting
       bind ret emit modify_files set_best get_best get_files set_lr_stepper
       raise return_ fst snd trace files best lr_stepper
       no_tensorboard force_cpu continue_weights continue_epoch lr d_model
       output_dir params_file weights_folder results_folder tensorboard_dir
       results_file best_loss_file best_acc_file best_text epoch_weights
       mk_output_dir mk_weights_folder mk_results_folder mk_tensorboard_dir
       with_folders with_params_file with_results_file
       resume_consistent start_epoch_of stepper_of opening_events reaches_loop
       andb].

(** The whole trace of lines 37-141, case by case. *)
Lemma main_setup_trace_explicit (args : Args) (env : Env) (st : State) :
  let opt :=
    [MakeOptimizer (match lr args with Some v => v | None => LR_DEFAULT_START env end)
                   (match lr args with
                    | Some _ => None
                    | None => Some (stepper_of args env)
                    end)] in
  let hdr := match results_file (files st) with
             | Some _ => []
             | None => [WriteCsvHeader]
             end in
  trace (snd (main_setup args env st)) =
  trace st ++ opening_events args
  ++ (if force_cpu args then
        match continue_weights args, continue_epoch args with
        | Some w, Some _ => [LoadStateDict w] ++ opt ++ hdr
        | None, None => opt ++ hdr
        | Some _, None =>
            [PrintError "ERROR: Need epoch number to continue from (-continue_epoch) when using continue_weights"]
        | None, Some _ =>
            [PrintError "ERROR: Need continue weights (-continue_weights) when using continue_epoch"]
        end
      else []).
Proof.
  run_setup_explicit args st; cbv zeta; rewrite <- ?app_assoc; reflexivity.
Qed.

Lemma main_setup_best_any (args : Args) (env : Env) (st : State) :
  best (snd (main_setup args env st)) =
  if reaches_loop args then initial_best else best st.
Proof. run_setup_explicit args st; reflexivity. Qed.

Lemma main_setup_lr_stepper_any (args : Args) (env : Env) (st : State) :
  lr_stepper (snd (main_setup args env st)) =
  if reaches_loop args then
    match lr args with None => Some (stepper_of args env) | Some _ => lr_stepper st end
  else lr_stepper st.
Proof. run_setup_explicit args st; reflexivity. Qed.

Lemma for_each_best (args : Args) (env : Env) (l : list Z) (st : State) :
  best (snd (for_each l (epoch_body args env) st)) =
  if weight_modulus args =? 0 then
    match l with [] => best st | e :: _ => tracked env e (best st) end
  else tracked_over env l (best st).
Proof.
  revert st. induction l as [|e l IH]; intros st.
  - simpl. destruct (weight_modulus args =? 0); reflexivity.
  - rewrite for_each_cons. destruct (weight_modulus args =? 0) eqn:Hm.
    + apply epoch_body_best.
    + rewrite IH, ?Hm, epoch_body_best. reflexivity.
Qed.

Lemma run_best (args : Args) (env : Env) (f : Files) :
  best (snd (run args env f)) =
  if reaches_loop args then
    if weight_modulus args =? 0 then
      match loop_epochs args with
      | [] => initial_best
      | e :: _ => tracked env e initial_best
      end
    else tracked_over env (loop_epochs args) initial_best
  else initial_best.
Proof.
  unfold run. destruct (reaches_loop args) eqn:Hr.
  - destruct (main_looped args env (start_state f) Hr) as (_ & _ & Hb & _).
    rewrite Hb, for_each_best, main_setup_best_any, Hr. reflexivity.
  - destruct (main_stopped_early args env (start_state f) Hr) as (Hs & _).
    rewrite Hs, main_setup_best_any, Hr. reflexivity.
Qed.

(** X1.  Without [--force_cpu] the local [device] is read at line 87 before
    anything assigned it: every such run raises [UnboundLocalError] once
    the folders are made, the parameters written, the summary writer opened,
    the datasets and the model built; the resume arguments are never looked
    at, no pass runs, and the log, the best files and the snapshots are as
    they were. *)
Theorem X1_unassigned_device_raises (args : Args) (env : Env) (f : Files) :
  force_cpu args = false ->
  let r := run args env f in
  let f' := files (snd r) in
  fst r = Raised (UnboundLocalError "device")
  /\ trace (snd r) = opening_events args
  /\ (output_dir f' = true /\ weights_folder f' = true /\ results_folder f' = true
      /\ params_file f' = Some args)
  /\ (results_file f' = results_file f
      /\ best_loss_file f' = best_loss_file f
      /\ best_acc_file f' = best_acc_file f
      /\ best_text f' = best_text f
      /\ epoch_weights f' = epoch_weights f).
Proof.
  intros Hc r f'. subst f' r.
  assert (Hr : reaches_loop args = false).
  { unfold reaches_loop. rewrite Hc. reflexivity. }
  pose proof (run_results_file args env f) as Hres. rewrite Hr in Hres.
  pose proof (run_outcome args env f) as Ho. rewrite Hc in Ho.
  unfold run in *.
  destruct (main_stopped_early args env (start_state f) Hr) as (Hs & _).
  pose proof (main_setup_trace_explicit args env (start_state f)) as Ht.
  cbv zeta in Ht. rewrite Hc in Ht. simpl in Ht. rewrite app_nil_r in Ht.
  destruct (main_setup_files args env (start_state f))
    as (H1 & H2 & H3 & H4 & _ & H6 & H7 & H8 & H9).
  rewrite Hs in *.
  split; [exact Ho|]. split; [exact Ht|]. repeat split; assumption.
Qed.

Lemma X1_unassigned_device_witness :
  fst (run (Build_Args false false (Some "w.pickle") None None 4 2 512)
           Example.env Example.empty_files) =
  Raised (UnboundLocalError "device")
  /\ trace (snd (run (Build_Args false false (Some "w.pickle") None None 4 2 512)
                     Example.env Example.empty_files)) =
     [Mkdir "output_dir"; WriteModelParams; Mkdir "weights"; Mkdir "results";
      OpenSummaryWriter; CreateDatasets; BuildModel].
Proof.
  exact (let H := X1_unassigned_device_raises
                    (Build_Args false false (Some "w.pickle") None None 4 2 512)
                    Example.env Example.empty_files eq_refl in
         conj (proj1 H) (proj1 (proj2 H))).
Defined.

(** X2.  A zero [weight_modulus] is only met at line 217: a run that
    reaches the loop with an iteration to do trains (unless the iteration
    is a baseline) and evaluates that iteration, brings the best records up
    to date, and then raises [ZeroDivisionError]; it saves no numbered
    snapshot and appends no row, so the log holds what it held, or the bare
    header.  A run whose loop has nothing to do never divides and ends
    normally. *)
Theorem X2_zero_modulus_raises_after_first_epoch
  (args : Args) (env : Env) (f : Files) :
  reaches_loop args = true ->
  weight_modulus args = 0 ->
  let r := run args env f in
  let s := start_epoch_of args in
  (s < epochs args ->
   fst r = Raised ZeroDivisionError
   /\ passes (trace (snd r)) =
      (if s >? BASELINE_EPOCH then [TrainEpoch (s + 1)] else [])
      ++ [EvalModel TrainLoader; EvalModel TestLoader]
   /\ best (snd r) = tracked env s initial_best
   /\ snapshot_names (trace (snd r)) = []
   /\ appended_rows (trace (snd r)) = []
   /\ results_file (files (snd r)) =
      Some (match results_file f with
            | Some old => old
            | None => [map FStr CSV_HEADER]
            end))
  /\ (epochs args <= s -> fst r = Done tt).
Proof.
  intros Hr Hm r s. subst r s.
  assert (Hm' : (weight_modulus args =? 0) = true) by (apply Z.eqb_eq; exact Hm).
  pose proof (run_outcome args env f) as Ho.
  unfold reaches_loop in Hr. apply andb_prop in Hr. destruct Hr as [Hc Hk].
  rewrite Hc, Hk, Hm' in Ho.
  assert (Hr : reaches_loop args = true).
  { unfold reaches_loop. rewrite Hc, Hk. reflexivity. }
  split.
  - intros Hlt.
    assert (Hl : loop_epochs args =
                 start_epoch_of args
                   :: py_range (start_epoch_of args + 1) (epochs args)).
    { unfold loop_epochs. apply py_range_cons. exact Hlt. }
    rewrite Hl in Ho.
    split; [exact Ho|]. split; [|split; [|split; [|split]]].
    + destruct (run_trace_from_start args env f Hr Hlt)
        as (evs & fin & Hq & Hfin & Ht).
      rewrite Ht, Hm', !passes_app.
      destruct (setup_events_project evs Hq) as (-> & _).
      rewrite passes_iteration.
      replace (passes fin) with (@nil Event) by (destruct Hfin; subst; reflexivity).
      simpl. rewrite app_nil_r. reflexivity.
    + rewrite run_best, Hr, Hm', Hl. reflexivity.
    + rewrite run_snapshots, Hr, Hm'. reflexivity.
    + rewrite run_rows, Hr, Hm'. reflexivity.
    + rewrite run_results_file, Hr, run_rows, Hr, Hm'. simpl.
      rewrite app_nil_r. reflexivity.
  - intros Hle. unfold loop_epochs in Ho. rewrite py_range_nil in Ho by exact Hle.
    exact Ho.
Qed.

Lemma X2_zero_modulus_witness :
  fst (run (Build_Args true true None None None 4 0 512)
           Example.env Example.empty_files) = Raised ZeroDivisionError
  /\ appended_rows
       (trace (snd (run (Build_Args true true None None None 4 0 512)
                        Example.env Example.empty_files))) = []
  /\ fst (run (Build_Args true true None None None (-1) 0 512)
              Example.env Example.empty_files) = Done tt.
Proof.
  exact (let H := X2_zero_modulus_raises_after_first_epoch
                    (Build_Args true true None None None 4 0 512)
                    Example.env Example.empty_files eq_refl eq_refl in
         let H0 := X2_zero_modulus_raises_after_first_epoch
                     (Build_Args true true None None None (-1) 0 512)
                     Example.env Example.empty_files eq_refl eq_refl in
         let H1 := proj1 H eq_refl in
         conj (proj1 H1)
              (conj (proj1 (proj2 (proj2 (proj2 (proj2 H1)))))
                    (proj2 H0 (Z.le_refl (-1))))).
Defined.

(** X3.  A fresh run that ends normally logs [epochs + 1] rows: the
    baseline as epoch 0, then the epochs 1 to [epochs]. *)
Theorem X3_fresh_run_rows (args : Args) (env : Env) (f : Files) :
  fst (run args env f) = Done tt ->
  continue_epoch args = None ->
  0 <= epochs args ->
  let rows := appended_rows (trace (snd (run args env f))) in
  row_epochs rows = py_range 0 (epochs args + 1)
  /\ List.length rows = Z.to_nat (epochs args + 1).
Proof.
  intros Hd He Hep rows. subst rows.
  destruct (run_completed _ _ _ Hd) as [Hr Hm].
  assert (Hl : loop_epochs args = py_range (-1) (epochs args)).
  { unfold loop_epochs, start_epoch_of. rewrite He. reflexivity. }
  assert (Hm' : (weight_modulus args =? 0) = false).
  { destruct Hm as [Hnil|Hm]; [|apply Z.eqb_neq; exact Hm].
    rewrite Hl, py_range_cons in Hnil by lia. discriminate. }
  rewrite run_rows, Hr, Hm'. simpl. rewrite Hl. split.
  - rewrite row_epochs_row_of, py_range_succ. reflexivity.
  - rewrite length_map. unfold py_range. rewrite length_map, length_seq. lia.
Qed.

Lemma X3_fresh_run_rows_witness :
  row_epochs (appended_rows
                (trace (snd (run Example.fresh_args Example.env
                                 Example.empty_files)))) = [0; 1; 2; 3; 4].
Proof.
  exact (proj1 (X3_fresh_run_rows Example.fresh_args Example.env
                                  Example.empty_files eq_refl eq_refl
                                  (Z.lt_le_incl 0 4 eq_refl))).
Defined.

(** X4.  Two runs over the same output folder share one log: the second
    run, whatever its arguments, appends its rows after those of the first
    and writes no second header, so the epoch column of the file starts over
    where the second run starts. *)
Theorem X4_runs_share_the_log
  (args1 args2 : Args) (env1 env2 : Env) (f : Files) :
  reaches_loop args1 = true ->
  reaches_loop args2 = true ->
  let r1 := run args1 env1 f in
  let r2 := run args2 env2 (files (snd r1)) in
  results_file (files (snd r2)) =
  Some (match results_file f with
        | Some old => old
        | None => [map FStr CSV_HEADER]
        end
        ++ appended_rows (trace (snd r1)) ++ appended_rows (trace (snd r2))).
Proof.
  intros H1 H2 r1 r2. subst r2. rewrite run_results_file, H2.
  subst r1. rewrite run_results_file, H1, <- app_assoc. reflexivity.
Qed.

Lemma X4_runs_share_the_log_witness :
  option_map row_epochs
    (option_map (@tl CsvRecord)
       (results_file
          (files (snd (run Example.resumed_args Example.env
                           (files (snd (run Example.fresh_args Example.env
                                            Example.empty_files)))))))) =
  Some [0; 1; 2; 3; 4; 3; 4].
Proof.
  exact (f_equal (fun x => option_map row_epochs (option_map (@tl CsvRecord) x))
           (X4_runs_share_the_log Example.fresh_args Example.resumed_args
              Example.env Example.env Example.empty_files eq_refl eq_refl)).
Defined.

(** X5.  A run resumed from an epoch [E >= 0] has no baseline evaluation:
    when it ends normally its passes are those of the epochs [E+1] to
    [epochs], each a training pass followed by the two evaluations, and
    nothing else. *)
Theorem X5_resumed_run_has_no_baseline
  (args : Args) (env : Env) (f : Files) (E : Z) :
  fst (run args env f) = Done tt ->
  continue_epoch args = Some E ->
  0 <= E ->
  passes (trace (snd (run args env f))) =
  flat_map (fun n => [TrainEpoch n; EvalModel TrainLoader; EvalModel TestLoader])
           (py_range (E + 1) (epochs args + 1)).
Proof.
  intros Hd He HE. rewrite (run_passes _ _ _ Hd).
  unfold loop_epochs, start_epoch_of. rewrite He, <- py_range_succ.
  rewrite !flat_map_concat_map, map_map. f_equal.
  apply map_ext_in. intros e Hin. apply py_range_bounds in Hin.
  unfold pass_events.
  replace (e >? BASELINE_EPOCH) with true
    by (symmetry; apply Z.gtb_lt; unfold BASELINE_EPOCH; lia).
  reflexivity.
Qed.

Lemma X5_resumed_run_witness :
  passes (trace (snd (run Example.resumed_args Example.env Example.prior_files))) =
  [TrainEpoch 3; EvalModel TrainLoader; EvalModel TestLoader;
   TrainEpoch 4; EvalModel TrainLoader; EvalModel TestLoader].
Proof.
  exact (X5_resumed_run_has_no_baseline Example.resumed_args Example.env
           Example.prior_files 2 eq_refl eq_refl (Z.lt_le_incl 0 2 eq_refl)).
Defined.

(** ** The order of floats *)

Module PyFloatOrder.

Ltac order_cases :=
  repeat match goal with
         | H : Some _ = Some _ |- _ => injection H as H
         | H : context [Z.compare ?a ?b] |- _ =>
             destruct (Z.compare_spec a b); try discriminate H
         | |- context [Z.compare ?a ?b] => destruct (Z.compare_spec a b)
         | H : context [Pos.compare_cont Eq ?a ?b] |- _ =>
             change (Pos.compare_cont Eq a b) with (Pos.compare a b) in H;
             destruct (Pos.compare_spec a b); try discriminate H
         | |- context [Pos.compare_cont Eq ?a ?b] =>
             change (Pos.compare_cont Eq a b) with (Pos.compare a b);
             destruct (Pos.compare_spec a b)
         end.

Lemma SFcompare_Lt_trans (x y z : SpecFloat.spec_float) :
  SpecFloat.SFcompare x y = Some Lt -> SpecFloat.SFcompare y z = Some Lt ->
  SpecFloat.SFcompare x z = Some Lt.
Proof.
  destruct x as [sx|sx| |sx mx ex], y as [sy|sy| |sy my ey], z as [sz|sz| |sz mz ez];
    simpl; try discriminate;
    try (destruct sx); try (destruct sy); try (destruct sz);
    try discriminate; try reflexivity;
    intros H1 H2; order_cases; simpl in *;
    try discriminate; try reflexivity; subst; try lia.
Qed.

Lemma SFcompare_Lt_irrefl (x : SpecFloat.spec_float) :
  SpecFloat.SFcompare x x <> Some Lt.
Proof.
  destruct x as [sx|sx| |sx mx ex]; simpl; try discriminate.
  - destruct sx; discriminate.
  - destruct sx; rewrite Z.compare_refl, Pos.compare_cont_refl; discriminate.
Qed.

Lemma ltb_Lt (a b : float) :
  PrimFloat.ltb a b = true <->
  SpecFloat.SFcompare (Prim2SF a) (Prim2SF b) = Some Lt.
Proof.
  rewrite ltb_spec. unfold SpecFloat.SFltb.
  destruct (SpecFloat.SFcompare (Prim2SF a) (Prim2SF b)) as [[| |]|];
    split; intros H; try discriminate; reflexivity.
Qed.

(** No float is below itself, not even NaN. *)
Lemma lt_irrefl (a : float) : PyFloat.lt a a = false.
Proof.
  unfold PyFloat.lt. destruct (PrimFloat.ltb a a) eqn:H; [|reflexivity].
  apply ltb_Lt in H. exfalso. exact (SFcompare_Lt_irrefl _ H).
Qed.

Lemma lt_trans (a b c : float) :
  PyFloat.lt a b = true -> PyFloat.lt b c = true -> PyFloat.lt a c = true.
Proof.
  unfold PyFloat.lt. rewrite !ltb_Lt. apply SFcompare_Lt_trans.
Qed.

Lemma gt_lt (a b : float) : PyFloat.gt a b = PyFloat.lt b a.
Proof. reflexivity. Qed.

End PyFloatOrder.

(** ** What the best records and the best files hold *)

Section BestFiles.

Variables (args : Args) (env : Env).

Lemma after_tracking_best_acc_file (epoch : Z) (st : State) :
  best_acc_file (files (after_tracking env epoch st)) =
  if PyFloat.gt (snd (eval_test env epoch)) (best_eval_acc (best st))
  then Some {| taken_at := epoch |} else best_acc_file (files st).
Proof.
  unfold after_tracking. rewrite track_best_files. simpl.
  repeat match goal with |- context [if ?c then _ else _] => destruct c end;
    reflexivity.
Qed.

Lemma after_tracking_best_loss_file (epoch : Z) (st : State) :
  best_loss_file (files (after_tracking env epoch st)) =
  if PyFloat.lt (fst (eval_test env epoch)) (best_eval_loss (best st))
  then Some {| taken_at := epoch |} else best_loss_file (files st).
Proof.
  unfold after_tracking. rewrite track_best_files. simpl.
  repeat match goal with |- context [if ?c then _ else _] => destruct c end;
    reflexivity.
Qed.

Lemma epoch_body_best_acc_file (epoch : Z) (st : State) :
  best_acc_file (files (snd (epoch_body args env epoch st))) =
  if PyFloat.gt (snd (eval_test env epoch)) (best_eval_acc (best st))
  then Some {| taken_at := epoch |} else best_acc_file (files st).
Proof.
  rewrite epoch_body_unfold. simpl.
  destruct (weight_modulus args =? 0); simpl.
  - apply after_tracking_best_acc_file.
  - destruct (snapshot_due args epoch); simpl; apply after_tracking_best_acc_file.
Qed.

Lemma epoch_body_best_loss_file (epoch : Z) (st : State) :
  best_loss_file (files (snd (epoch_body args env epoch st))) =
  if PyFloat.lt (fst (eval_test env epoch)) (best_eval_loss (best st))
  then Some {| taken_at := epoch |} else best_loss_file (files st).
Proof.
  rewrite epoch_body_unfold. simpl.
  destruct (weight_modulus args =? 0); simpl.
  - apply after_tracking_best_loss_file.
  - destruct (snapshot_due args epoch); simpl; apply after_tracking_best_loss_file.
Qed.

Lemma tracked_unchanged (epoch : Z) (b : Best) :
  PyFloat.gt (snd (eval_test env epoch)) (best_eval_acc b) = false ->
  PyFloat.lt (fst (eval_test env epoch)) (best_eval_loss b) = false ->
  tracked env epoch b = b.
Proof.
  intros Ha Hl. unfold tracked. rewrite Ha, Hl. destruct b; reflexivity.
Qed.

(** Any property of the state that every iteration keeps holds after the
    loop, however the loop ends. *)
Lemma for_each_invariant (I : State -> Prop) (l : list Z) (st : State) :
  (forall e s, In e l -> I s -> I (snd (epoch_body args env e s))) ->
  I st -> I (snd (for_each l (epoch_body args env) st)).
Proof.
  revert st. induction l as [|e l IH]; intros st Hstep Hst; [exact Hst|].
  rewrite for_each_cons. destruct (weight_modulus args =? 0).
  - apply Hstep; [left; reflexivity|exact Hst].
  - apply IH.
    + intros e' s Hin. apply Hstep. right. exact Hin.
    + apply Hstep; [left; reflexivity|exact Hst].
Qed.

End BestFiles.

(** An invariant of the iterations that holds when the loop is entered, and
    of the untouched state otherwise, holds at the end of every run. *)
Lemma run_invariant (args : Args) (env : Env) (f : Files) (I : State -> Prop) :
  (forall e s, In e (loop_epochs args) -> I s -> I (snd (epoch_body args env e s))) ->
  (forall s s', files s' = files s -> best s' = best s -> I s -> I s') ->
  I (snd (main_setup args env (start_state f))) ->
  I (snd (run args env f)).
Proof.
  intros Hstep Hext Hsetup. unfold run.
  destruct (reaches_loop args) eqn:Hr.
  - destruct (main_looped args env (start_state f) Hr) as (_ & Hf & Hb & _).
    apply (Hext _ _ Hf Hb). apply for_each_invariant; assumption.
  - destruct (main_stopped_early args env (start_state f) Hr) as (Hs & _).
    rewrite Hs. exact Hsetup.
Qed.

(** X6.  At the end of every run each best-weight file agrees with its
    record.  Either the record is still the sentinel and the file is what
    the folder held before the run, or the file holds the weights taken in
    the iteration the record names, an iteration of this run, and the
    record holds the metric observed there. *)
Theorem X6_best_files_agree_with_records (args : Args) (env : Env) (f : Files) :
  let st' := snd (run args env f) in
  let b := best st' in
  ((best_eval_acc b = 0%float /\ best_eval_acc_epoch b = -1
    /\ best_acc_file (files st') = best_acc_file f)
   \/ (best_acc_file (files st') = Some {| taken_at := best_eval_acc_epoch b - 1 |}
       /\ best_eval_acc b = snd (eval_test env (best_eval_acc_epoch b - 1))
       /\ In (best_eval_acc_epoch b - 1) (loop_epochs args)))
  /\ ((best_eval_loss b = PyFloat.inf /\ best_eval_loss_epoch b = -1
       /\ best_loss_file (files st') = best_loss_file f)
      \/ (best_loss_file (files st') = Some {| taken_at := best_eval_loss_epoch b - 1 |}
          /\ best_eval_loss b = fst (eval_test env (best_eval_loss_epoch b - 1))
          /\ In (best_eval_loss_epoch b - 1) (loop_epochs args))).
Proof.
  cbv zeta.
  pose proof (main_setup_files args env (start_state f))
    as (_ & _ & _ & _ & _ & Hl0 & Ha0 & _).
  pose proof (main_setup_best_any args env (start_state f)) as Hb0.
  assert (Hinit : best (snd (main_setup args env (start_state f))) = initial_best).
  { rewrite Hb0. destruct (reaches_loop args); reflexivity. }
  split.
  - apply (run_invariant args env f (fun st =>
      (best_eval_acc (best st) = 0%float /\ best_eval_acc_epoch (best st) = -1
       /\ best_acc_file (files st) = best_acc_file f)
      \/ (best_acc_file (files st) =
            Some {| taken_at := best_eval_acc_epoch (best st) - 1 |}
          /\ best_eval_acc (best st) =
             snd (eval_test env (best_eval_acc_epoch (best st) - 1))
          /\ In (best_eval_acc_epoch (best st) - 1) (loop_epochs args)))).
    + intros e s Hin HI.
      rewrite epoch_body_best_acc_file, epoch_body_best. unfold tracked. simpl.
      destruct (PyFloat.gt (snd (eval_test env e)) (best_eval_acc (best s))).
      * right. replace (e + 1 - 1) with e by lia. repeat split. exact Hin.
      * exact HI.
    + intros s s' Hf Hb HI. rewrite Hf, Hb. exact HI.
    + left. rewrite Hinit. simpl in Ha0. rewrite Ha0. repeat split.
  - apply (run_invariant args env f (fun st =>
      (best_eval_loss (best st) = PyFloat.inf /\ best_eval_loss_epoch (best st) = -1
       /\ best_loss_file (files st) = best_loss_file f)
      \/ (best_loss_file (files st) =
            Some {| taken_at := best_eval_loss_epoch (best st) - 1 |}
          /\ best_eval_loss (best st) =
             fst (eval_test env (best_eval_loss_epoch (best st) - 1))
          /\ In (best_eval_loss_epoch (best st) - 1) (loop_epochs args)))).
    + intros e s Hin HI.
      rewrite epoch_body_best_loss_file, epoch_body_best. unfold tracked. simpl.
      destruct (PyFloat.lt (fst (eval_test env e)) (best_eval_loss (best s))).
      * right. replace (e + 1 - 1) with e by lia. repeat split. exact Hin.
      * exact HI.
    + intros s s' Hf Hb HI. rewrite Hf, Hb. exact HI.
    + left. rewrite Hinit. simpl in Hl0. rewrite Hl0. repeat split.
Qed.

(** X7.  The best-summary file is never behind the records.  At the end of
    every run, either nothing improved on the sentinels and the file is what
    the folder held before the run, or the file holds exactly the four lines
    of the records as they stand when the run ends. *)
Theorem X7_best_text_agrees_with_records (args : Args) (env : Env) (f : Files) :
  let st' := snd (run args env f) in
  (best st' = initial_best /\ best_text (files st') = best_text f)
  \/ best_text (files st') = Some (best_text_lines (best st')).
Proof.
  cbv zeta.
  pose proof (main_setup_files args env (start_state f))
    as (_ & _ & _ & _ & _ & _ & _ & Ht0 & _).
  pose proof (main_setup_best_any args env (start_state f)) as Hb0.
  apply (run_invariant args env f (fun st =>
    (best st = initial_best /\ best_text (files st) = best_text f)
    \/ best_text (files st) = Some (best_text_lines (best st)))).
  - intros e s _ HI. rewrite epoch_body_best_text, epoch_body_best.
    destruct (PyFloat.gt (snd (eval_test env e)) (best_eval_acc (best s))) eqn:Ha;
      [right; reflexivity|].
    destruct (PyFloat.lt (fst (eval_test env e)) (best_eval_loss (best s))) eqn:Hl;
      [right; reflexivity|].
    simpl. rewrite (tracked_unchanged env e (best s) Ha Hl). exact HI.
  - intros s s' Hf Hb HI. rewrite Hf, Hb. exact HI.
  - left. simpl in Ht0. rewrite Ht0, Hb0.
    destruct (reaches_loop args); split; reflexivity.
Qed.

(** ** The records are the best of the run *)

Lemma tracked_acc_self (env : Env) (e : Z) (b : Best) :
  PyFloat.gt (snd (eval_test env e)) (best_eval_acc (tracked env e b)) = false.
Proof.
  unfold tracked. simpl.
  destruct (PyFloat.gt (snd (eval_test env e)) (best_eval_acc b)) eqn:Ha.
  - rewrite PyFloatOrder.gt_lt. apply PyFloatOrder.lt_irrefl.
  - exact Ha.
Qed.

Lemma tracked_loss_self (env : Env) (e : Z) (b : Best) :
  PyFloat.lt (fst (eval_test env e)) (best_eval_loss (tracked env e b)) = false.
Proof.
  unfold tracked. simpl.
  destruct (PyFloat.lt (fst (eval_test env e)) (best_eval_loss b)) eqn:Hl.
  - apply PyFloatOrder.lt_irrefl.
  - exact Hl.
Qed.

Lemma tracked_acc_keeps (env : Env) (e : Z) (b : Best) (x : float) :
  PyFloat.gt x (best_eval_acc b) = false ->
  PyFloat.gt x (best_eval_acc (tracked env e b)) = false.
Proof.
  intros Hx. unfold tracked. simpl.
  destruct (PyFloat.gt (snd (eval_test env e)) (best_eval_acc b)) eqn:Ha;
    [|exact Hx].
  destruct (PyFloat.gt x (snd (eval_test env e))) eqn:Hn; [|reflexivity].
  rewrite PyFloatOrder.gt_lt in *.
  rewrite (PyFloatOrder.lt_trans _ _ _ Ha Hn) in Hx. discriminate.
Qed.

Lemma tracked_loss_keeps (env : Env) (e : Z) (b : Best) (x : float) :
  PyFloat.lt x (best_eval_loss b) = false ->
  PyFloat.lt x (best_eval_loss (tracked env e b)) = false.
Proof.
  intros Hx. unfold tracked. simpl.
  destruct (PyFloat.lt (fst (eval_test env e)) (best_eval_loss b)) eqn:Hl;
    [|exact Hx].
  destruct (PyFloat.lt x (fst (eval_test env e))) eqn:Hn; [|reflexivity].
  rewrite (PyFloatOrder.lt_trans _ _ _ Hn Hl) in Hx. discriminate.
Qed.

Lemma tracked_over_keeps (env : Env) (l : list Z) (b : Best) (x y : float) :
  PyFloat.gt x (best_eval_acc b) = false ->
  PyFloat.lt y (best_eval_loss b) = false ->
  PyFloat.gt x (best_eval_acc (tracked_over env l b)) = false
  /\ PyFloat.lt y (best_eval_loss (tracked_over env l b)) = false.
Proof.
  revert b. induction l as [|e l IH]; intros b Hx Hy; [split; assumption|].
  unfold tracked_over in *. cbn [fold_left]. apply IH.
  - apply tracked_acc_keeps. exact Hx.
  - apply tracked_loss_keeps. exact Hy.
Qed.

Lemma tracked_over_bounds (env : Env) (l : list Z) (b : Best) (e : Z) :
  In e l ->
  PyFloat.gt (snd (eval_test env e)) (best_eval_acc (tracked_over env l b)) = false
  /\ PyFloat.lt (fst (eval_test env e)) (best_eval_loss (tracked_over env l b)) = false.
Proof.
  revert b. induction l as [|e' l IH]; intros b Hin; [destruct Hin|].
  destruct Hin as [->|Hin].
  - unfold tracked_over. cbn [fold_left]. apply tracked_over_keeps.
    + apply tracked_acc_self.
    + apply tracked_loss_self.
  - unfold tracked_over in *. cbn [fold_left]. apply IH. exact Hin.
Qed.

(** X8.  When a run ends normally, no epoch it evaluated beats its records:
    no held-out accuracy of the run is above the final best accuracy and no
    held-out loss is below the final best loss, in the comparisons of the
    floats (so a NaN metric never counts). *)
Theorem X8_records_are_the_best (args : Args) (env : Env) (f : Files) (e : Z) :
  fst (run args env f) = Done tt ->
  In e (loop_epochs args) ->
  let b := best (snd (run args env f)) in
  PyFloat.gt (snd (eval_test env e)) (best_eval_acc b) = false
  /\ PyFloat.lt (fst (eval_test env e)) (best_eval_loss b) = false.
Proof.
  intros Hd Hin b. subst b.
  destruct (run_completed _ _ _ Hd) as [Hr Hm].
  destruct Hm as [Hnil|Hm]; [rewrite Hnil in Hin; destruct Hin|].
  apply Z.eqb_neq in Hm. rewrite run_best, Hr, Hm.
  apply tracked_over_bounds. exact Hin.
Qed.

Lemma X8_records_witness :
  PyFloat.gt (snd (eval_test Example.env 3))
             (best_eval_acc
                (best (snd (run Example.fresh_args Example.env
                                Example.empty_files)))) = false
  /\ PyFloat.lt (fst (eval_test Example.env 3))
                (best_eval_loss
                   (best (snd (run Example.fresh_args Example.env
                                   Example.empty_files)))) = false.
Proof.
  exact (X8_records_are_the_best Example.fresh_args Example.env
           Example.empty_files 3 eq_refl
           (or_intror (or_intror (or_intror (or_intror (or_introl eq_refl)))))).
Defined.

(** ** Tensorboard is a side channel *)

Lemma without_tensorboard_app (l1 l2 : list Event) :
  without_tensorboard (l1 ++ l2) = without_tensorboard l1 ++ without_tensorboard l2.
Proof. apply filter_app. Qed.

Lemma without_tensorboard_idem (l : list Event) :
  without_tensorboard (without_tensorboard l) = without_tensorboard l.
Proof.
  induction l as [|e l IH]; [reflexivity|].
  unfold without_tensorboard in *. cbn [filter].
  destruct (negb (is_tensorboard_event e)) eqn:He; [|exact IH].
  cbn [filter]. rewrite He, IH. reflexivity.
Qed.

Lemma core_idem (st : State) : core (core st) = core st.
Proof.
  unfold core. cbn [files trace best lr_stepper].
  rewrite without_tensorboard_idem. reflexivity.
Qed.

Lemma track_best_core (epoch : Z) (eval_loss eval_acc : float) (st : State) :
  core (snd (track_best epoch eval_loss eval_acc st)) =
  snd (track_best epoch eval_loss eval_acc (core st)).
Proof.
  destruct st as [[od pf wf rf tb log bl ba bt ew] tr b stp].
  unfold track_best, track_acc, track_loss. unfold_monad.
  cbn [core files trace best lr_stepper fst snd files_core].
  destruct (PyFloat.gt eval_acc (best_eval_acc b));
    cbn [core files trace best lr_stepper fst snd best_eval_loss];
    destruct (PyFloat.lt eval_loss (best_eval_loss b));
    cbn [core files trace best lr_stepper fst snd orb];
    unfold core; cbn [files trace best lr_stepper];
    rewrite ?without_tensorboard_app; reflexivity.
Qed.

Lemma after_passes_core (epoch : Z) (st : State) :
  core (after_passes epoch st) = after_passes epoch (core st).
Proof.
  unfold after_passes, core. cbn [files trace best lr_stepper].
  rewrite !without_tensorboard_app.
  destruct (epoch >? BASELINE_EPOCH); reflexivity.
Qed.

Lemma after_tracking_core (env : Env) (epoch : Z) (st : State) :
  core (after_tracking env epoch st) = after_tracking env epoch (core st).
Proof.
  unfold after_tracking. rewrite track_best_core, after_passes_core. reflexivity.
Qed.

Lemma epoch_body_core (args : Args) (env : Env) (epoch : Z) (st : State) :
  core (snd (epoch_body args env epoch st)) =
  core (snd (epoch_body (with_no_tensorboard true args) env epoch (core st))).
Proof.
  rewrite !epoch_body_unfold. cbv zeta.
  rewrite <- after_tracking_core.
  unfold snapshot_due, scalars_events.
  cbn [weight_modulus no_tensorboard with_no_tensorboard].
  generalize (after_tracking env epoch st). intros st2.
  destruct st2 as [[od pf wf rf tb log bl ba bt ew] tr b stp].
  destruct (weight_modulus args =? 0);
    destruct (no_tensorboard args);
    destruct ((epoch + 1) mod weight_modulus args =? 0);
    unfold core, append_results_row;
    cbn [fst snd files trace best lr_stepper files_core results_file
         with_results_file with_epoch_weights output_dir params_file
         weights_folder results_folder tensorboard_dir best_loss_file
         best_acc_file best_text epoch_weights];
    rewrite ?without_tensorboard_app, ?without_tensorboard_idem; reflexivity.
Qed.

Lemma for_each_core (env : Env) (l : list Z) :
  forall (args : Args) (st : State),
    core (snd (for_each l (epoch_body args env) st)) =
    core (snd (for_each l (epoch_body (with_no_tensorboard true args) env)
                        (core st))).
Proof.
  induction l as [|e l IH]; intros args st.
  - cbn [for_each]. unfold ret. cbn [snd]. rewrite core_idem. reflexivity.
  - rewrite !for_each_cons. cbn [weight_modulus with_no_tensorboard].
    destruct (weight_modulus args =? 0).
    + rewrite epoch_body_core. symmetry. rewrite epoch_body_core.
      rewrite core_idem. reflexivity.
    + rewrite IH. symmetry. rewrite IH. symmetry.
      rewrite epoch_body_core. symmetry. rewrite epoch_body_core.
      rewrite core_idem. reflexivity.
Qed.

Lemma main_setup_core (args : Args) (env : Env) (st : State) :
  core (snd (main_setup args env st)) =
  core (snd (main_setup (with_no_tensorboard true args) env (core st))).
Proof.
  destruct args as [fc nt cw ce rate ep wm dm];
    destruct st as [[od pf wf rf tb log bl ba bt ew] tr bb stp];
    destruct fc, nt, cw, ce, rate, log;
    cbv [main_setup continue_from make_optimizer results_reporting
         bind ret emit modify_files set_best get_best get_files set_lr_stepper
         raise return_ fst snd trace files best lr_stepper
         no_tensorboard force_cpu continue_weights continue_epoch lr d_model
         epochs weight_modulus
         output_dir params_file weights_folder results_folder tensorboard_dir
         results_file best_loss_file best_acc_file best_text epoch_weights
         mk_output_dir mk_weights_folder mk_results_folder mk_tensorboard_dir
         with_folders with_params_file with_results_file
         with_no_tensorboard core files_core];
    rewrite <- ?app_assoc; cbn [app];
    rewrite ?without_tensorboard_app, ?without_tensorboard_idem; reflexivity.
Qed.

Lemma main_core_looped (args : Args) (env : Env) (st : State) :
  reaches_loop args = true ->
  core (snd (main args env st)) =
  core (snd (for_each (loop_epochs args) (epoch_body args env)
                      (snd (main_setup args env st)))).
Proof.
  intros Hr.
  destruct (main_looped args env st Hr) as (_ & Hf & Hb & Hl & Ht).
  unfold core. rewrite Hf, Hb, Hl, Ht, without_tensorboard_app.
  replace (without_tensorboard
             match fst (for_each (loop_epochs args) (epoch_body args env)
                                 (snd (main_setup args env st))) with
             | Done _ => if no_tensorboard args then [] else [FlushSummary]
             | _ => []
             end) with (@nil Event).
  - rewrite app_nil_r. reflexivity.
  - destruct (fst _); [destruct (no_tensorboard args)| |]; reflexivity.
Qed.

Lemma main_core (args : Args) (env : Env) (st : State) :
  core (snd (main args env st)) =
  core (snd (main (with_no_tensorboard true args) env (core st))).
Proof.
  destruct (reaches_loop args) eqn:Hr.
  - assert (Hr' : reaches_loop (with_no_tensorboard true args) = true) by exact Hr.
    rewrite (main_core_looped args env st Hr).
    rewrite (main_core_looped _ env (core st) Hr').
    change (loop_epochs (with_no_tensorboard true args)) with (loop_epochs args).
    rewrite for_each_core. symmetry. rewrite for_each_core. symmetry.
    change (with_no_tensorboard true (with_no_tensorboard true args))
      with (with_no_tensorboard true args).
    rewrite main_setup_core. symmetry. rewrite main_setup_core. symmetry.
    change (with_no_tensorboard true (with_no_tensorboard true args))
      with (with_no_tensorboard true args).
    rewrite !core_idem. reflexivity.
  - assert (Hr' : reaches_loop (with_no_tensorboard true args) = false) by exact Hr.
    destruct (main_stopped_early args env st Hr) as (-> & _).
    destruct (main_stopped_early _ env (core st) Hr') as (-> & _).
    apply main_setup_core.
Qed.

(** X9.  Tensorboard can be switched on or off without changing anything
    else: the two runs end the same way, do the same things in the same
    order apart from the calls into tensorboard, leave the same best
    records and step tracker, and leave the same log, best files, summary
    and snapshots in the output folder. *)
Theorem X9_tensorboard_changes_nothing_else
  (args : Args) (env : Env) (f : Files) (b : bool) :
  let r := run args env f in
  let r' := run (with_no_tensorboard b args) env f in
  fst r = fst r'
  /\ without_tensorboard (trace (snd r)) = without_tensorboard (trace (snd r'))
  /\ best (snd r) = best (snd r')
  /\ lr_stepper (snd r) = lr_stepper (snd r')
  /\ results_file (files (snd r)) = results_file (files (snd r'))
  /\ best_loss_file (files (snd r)) = best_loss_file (files (snd r'))
  /\ best_acc_file (files (snd r)) = best_acc_file (files (snd r'))
  /\ best_text (files (snd r)) = best_text (files (snd r'))
  /\ epoch_weights (files (snd r)) = epoch_weights (files (snd r')).
Proof.
  cbv zeta.
  assert (Hcore : core (snd (run args env f)) =
                  core (snd (run (with_no_tensorboard b args) env f))).
  { unfold run. rewrite main_core. symmetry. rewrite main_core. reflexivity. }
  split.
  - rewrite !run_outcome. reflexivity.
  - split; [exact (f_equal trace Hcore)|].
    split; [exact (f_equal best Hcore)|].
    split; [exact (f_equal lr_stepper Hcore)|].
    split; [exact (f_equal (fun s => results_file (files s)) Hcore)|].
    split; [exact (f_equal (fun s => best_loss_file (files s)) Hcore)|].
    split; [exact (f_equal (fun s => best_acc_file (files s)) Hcore)|].
    split; [exact (f_equal (fun s => best_text (files s)) Hcore)|].
    exact (f_equal (fun s => epoch_weights (files s)) Hcore).
Qed.

(** ** What a run does before its loop *)

Lemma iteration_events_not_setup (args : Args) (env : Env) (e : Z) (b : Best) :
  forallb (fun ev => negb (is_setup_event ev)) (iteration_events args env e b) = true.
Proof.
  unfold iteration_events, pass_events, tracking_events, closing_events,
    scalars_events.
  rewrite !forallb_app.
  repeat match goal with |- context [if ?c then _ else _] => destruct c end;
    reflexivity.
Qed.

Lemma loop_events_not_setup (args : Args) (env : Env) (l : list Z) (b : Best) :
  forallb (fun ev => negb (is_setup_event ev)) (loop_events args env l b) = true.
Proof.
  revert b. induction l as [|e l IH]; intros b; [reflexivity|].
  cbn [loop_events]. rewrite forallb_app, iteration_events_not_setup.
  destruct (weight_modulus args =? 0); [reflexivity|apply IH].
Qed.

(** X10.  Before its first pass a run that reaches the loop does exactly
    this, in this order: it makes the folders and writes the parameters,
    opens the summary writer unless told not to, builds the datasets and the
    model, loads the given weights if it is resumed, builds the optimizer
    (over the default rate and a step tracker when no rate is given, over
    the given rate and no tracker otherwise) and writes the header of the
    log if the log is not there. *)
Theorem X10_before_the_loop (args : Args) (env : Env) (f : Files) :
  reaches_loop args = true ->
  exists rest,
    forallb (fun ev => negb (is_setup_event ev)) rest = true
    /\ trace (snd (run args env f)) =
       opening_events args
       ++ (match continue_weights args with
           | Some w => [LoadStateDict w]
           | None => []
           end)
       ++ [match lr args with
           | Some v => MakeOptimizer v None
           | None => MakeOptimizer (LR_DEFAULT_START env) (Some (stepper_of args env))
           end]
       ++ (match results_file f with
           | Some _ => []
           | None => [WriteCsvHeader]
           end)
       ++ rest.
Proof.
  intros Hr. unfold run.
  destruct (main_looped args env (start_state f) Hr) as (_ & _ & _ & _ & Ht).
  pose proof (main_setup_trace_explicit args env (start_state f)) as Hs.
  pose proof (main_setup_best_any args env (start_state f)) as Hb.
  rewrite Hr in Hb. cbv zeta in Hs.
  rewrite for_each_trace, Hs, Hb in Ht. clear Hs Hb.
  unfold reaches_loop, resume_consistent in Hr.
  apply andb_prop in Hr. destruct Hr as [Hc Hk]. rewrite Hc in Ht.
  eexists. split; [|rewrite Ht; clear Ht].
  2: { cbn [trace start_state app files].
       destruct (continue_weights args), (continue_epoch args); try discriminate;
         destruct (lr args); rewrite <- ?app_assoc; reflexivity. }
  rewrite forallb_app, loop_events_not_setup.
  destruct (fst _) as [[]| |]; [destruct (no_tensorboard args)| |]; reflexivity.
Qed.

Lemma X10_before_the_loop_witness :
  exists rest,
    forallb (fun ev => negb (is_setup_event ev)) rest = true
    /\ trace (snd (run Example.resumed_args Example.env Example.prior_files)) =
       opening_events Example.resumed_args
       ++ [LoadStateDict "weights/epoch_0002.pickle"]
       ++ [MakeOptimizer 1 (Some {| model_dim := 512; warmup_steps := 4000;
                                    init_steps := 8 |})]
       ++ []
       ++ rest.
Proof.
  exact (X10_before_the_loop Example.resumed_args Example.env
                             Example.prior_files eq_refl).
Defined.

(** ** Further properties of [preprocess_midi.py] *)

Module PreprocessMore.

Import Preprocess.

Lemma progress_app (l1 l2 : list Event) :
  progress (l1 ++ l2) = progress l1 ++ progress l2.
Proof. apply flat_map_app. Qed.

Lemma count_of_cons (d : SplitDir) (p : Piece) (pieces : list Piece) :
  count_of d (p :: pieces) =
  (match split_dir (split p), d with
   | Some TrainDir, TrainDir | Some ValDir, ValDir | Some TestDir, TestDir => 1
   | _, _ => 0
   end) + count_of d pieces.
Proof.
  unfold count_of. cbn [filter].
  destruct (split_dir (split p)) as [[]|], d; cbn [List.length]; lia.
Qed.

(** The loop over pieces that are all recognized, from the counts [c]. *)
Lemma pieces_loop_all (maestro_root : string) (n : Z) (pieces : list Piece) :
  Forall recognized pieces ->
  forall c,
    let r := pieces_loop maestro_root n pieces c in
    fst r = true
    /\ dumps (snd r) = flat_map (dump_of maestro_root) pieces
    /\ progress (snd r) =
       filter (fun t => t mod 50 =? 0)
              (py_range (total_count c + 1)
                        (total_count c + Z.of_nat (List.length pieces) + 1))
    /\ exists evs,
         snd r = evs ++ [PrintCounts (train_count c + count_of TrainDir pieces)
                                     (val_count c + count_of ValDir pieces)
                                     (test_count c + count_of TestDir pieces)].
Proof.
  intros Hall. induction Hall as [|p pieces Hp Hall IH]; intros c.
  - cbn [pieces_loop fst snd List.length]. split; [reflexivity|].
    split; [reflexivity|]. split.
    + rewrite py_range_nil by lia. reflexivity.
    + exists []. unfold count_of. cbn. rewrite !Z.add_0_r. reflexivity.
  - cbn [pieces_loop]. unfold dump_of at 1. cbn [flat_map].
    apply PreprocessFacts.split_dir_recognized in Hp.
    destruct (split_dir (split p)) as [d|] eqn:Hd; [|contradiction].
    specialize (IH (count_total (count d c))). cbv zeta in IH.
    destruct (pieces_loop maestro_root n pieces (count_total (count d c)))
      as [r evs].
    cbn [fst snd] in *. destruct IH as (Hr & Hdu & Hpr & evs' & Hev).
    assert (Htot : total_count (count_total (count d c)) = total_count c + 1).
    { destruct d; reflexivity. }
    split; [exact Hr|]. split; [|split].
    + cbn [app]. unfold dumps at 1. cbn [flat_map app].
      fold (dumps ((if total_count (count_total (count d c)) mod 50 =? 0
                    then [PrintProgress (total_count (count_total (count d c))) n]
                    else []) ++ evs)).
      rewrite PreprocessFacts.dumps_app, Hdu.
      destruct (total_count (count_total (count d c)) mod 50 =? 0); reflexivity.
    + cbn [app]. unfold progress at 1. cbn [flat_map app].
      fold (progress ((if total_count (count_total (count d c)) mod 50 =? 0
                       then [PrintProgress (total_count (count_total (count d c))) n]
                       else []) ++ evs)).
      rewrite progress_app, Hpr, Htot.
      rewrite (py_range_cons (total_count c + 1)) by (cbn [List.length]; lia).
      cbn [filter List.length].
      replace (total_count c + Z.of_nat (S (List.length pieces)) + 1)
        with (total_count c + 1 + Z.of_nat (List.length pieces) + 1) by lia.
      destruct ((total_count c + 1) mod 50 =? 0); reflexivity.
    + rewrite Hev.
      exists ([EncodeMidi (path_join maestro_root (midi_filename p));
               Dump d (last_piece (path_join maestro_root (midi_filename p))
                                  EmptyString ++ ".pickle")%string
                    (path_join maestro_root (midi_filename p))]
              ++ (if total_count (count_total (count d c)) mod 50 =? 0
                  then [PrintProgress (total_count (count_total (count d c))) n]
                  else [])
              ++ evs').
      rewrite <- !app_assoc. cbn [app]. do 3 f_equal.
      rewrite !count_of_cons, Hd. f_equal. f_equal.
      destruct d; cbn [count count_total train_count val_count test_count];
        f_equal; lia.
Qed.

Lemma counts_add_up (pieces : list Piece) :
  Forall recognized pieces ->
  count_of TrainDir pieces + count_of ValDir pieces + count_of TestDir pieces =
  Z.of_nat (List.length pieces).
Proof.
  intros Hall. induction Hall as [|p pieces Hp Hall IH]; [reflexivity|].
  rewrite !count_of_cons. apply PreprocessFacts.split_dir_recognized in Hp.
  destruct (split_dir (split p)) as [[]|]; [| | |contradiction];
    cbn [List.length]; lia.
Qed.

(** X11.  When every piece has a recognized split label, [prep_maestro_midi]
    returns True, writes one file per piece, in the order of the json, and
    ends on the line of the three counts, which are the numbers of pieces of
    each label and add up to the number of pieces. *)
Theorem X11_all_pieces_written (maestro_root : string) (pieces : list Piece) :
  Forall recognized pieces ->
  let r := prep_maestro_midi maestro_root (Some pieces) in
  fst r = true
  /\ dumps (snd r) = flat_map (dump_of maestro_root) pieces
  /\ List.length (dumps (snd r)) = List.length pieces
  /\ (exists evs,
        snd r = evs ++ [PrintCounts (count_of TrainDir pieces)
                                    (count_of ValDir pieces)
                                    (count_of TestDir pieces)])
  /\ count_of TrainDir pieces + count_of ValDir pieces + count_of TestDir pieces =
     Z.of_nat (List.length pieces).
Proof.
  intros Hall r. subst r. unfold prep_maestro_midi.
  pose proof (pieces_loop_all maestro_root (Z.of_nat (List.length pieces)) pieces Hall
                {| total_count := 0; train_count := 0; val_count := 0;
                   test_count := 0 |}) as H.
  cbv zeta in H.
  destruct (pieces_loop maestro_root (Z.of_nat (List.length pieces)) pieces
                        {| total_count := 0; train_count := 0;
                           val_count := 0; test_count := 0 |}) as [res evs].
  cbn [fst snd total_count train_count val_count test_count] in *.
  destruct H as (Hr & Hd & _ & evs' & Hev).
  split; [exact Hr|]. split; [|split; [|split]].
  - rewrite !PreprocessFacts.dumps_app, Hd. reflexivity.
  - rewrite !PreprocessFacts.dumps_app, Hd. cbn [dumps flat_map app].
    apply PreprocessFacts.dump_of_length. exact Hall.
  - rewrite Hev.
    exists ([Mkdir "output_dir"; Mkdir "train"; Mkdir "val"; Mkdir "test"]
            ++ [PrintFound (Z.of_nat (List.length pieces))] ++ evs').
    rewrite <- !app_assoc. reflexivity.
  - apply counts_add_up. exact Hall.
Qed.

Lemma X11_all_pieces_witness :
  fst (prep_maestro_midi "maestro"
         (Some [ {| midi_filename := "2004/a.midi"; split := "train" |};
                 {| midi_filename := "2006/b.midi"; split := "validation" |} ])) =
  true.
Proof.
  refine (proj1 (X11_all_pieces_written "maestro"
                   [ {| midi_filename := "2004/a.midi"; split := "train" |};
                     {| midi_filename := "2006/b.midi"; split := "validation" |} ]
                   _)).
  constructor; [left; reflexivity|].
  constructor; [right; left; reflexivity|]. constructor.
Defined.

(** X12.  On a piece list that is all recognized, a progress line is
    printed after each fiftieth piece and at no other time: the counts
    shown are the multiples of 50 up to the number of pieces. *)
Theorem X12_progress_every_fifty (maestro_root : string) (pieces : list Piece) :
  Forall recognized pieces ->
  progress (snd (prep_maestro_midi maestro_root (Some pieces))) =
  filter (fun t => t mod 50 =? 0)
         (py_range 1 (Z.of_nat (List.length pieces) + 1)).
Proof.
  intros Hall. unfold prep_maestro_midi.
  pose proof (pieces_loop_all maestro_root (Z.of_nat (List.length pieces)) pieces Hall
                {| total_count := 0; train_count := 0; val_count := 0;
                   test_count := 0 |}) as H.
  cbv zeta in H.
  destruct (pieces_loop maestro_root (Z.of_nat (List.length pieces)) pieces
                        {| total_count := 0; train_count := 0;
                           val_count := 0; test_count := 0 |}) as [res evs].
  cbn [fst snd total_count] in *.
  destruct H as (_ & _ & Hp & _).
  rewrite !progress_app, Hp. reflexivity.
Qed.

Lemma X12_progress_witness :
  progress (snd (prep_maestro_midi "maestro"
                   (Some (repeat {| midi_filename := "a.midi"; split := "train" |}
                                 120)))) = [50; 100].
Proof.
  refine (eq_trans (X12_progress_every_fifty "maestro"
                      (repeat {| midi_filename := "a.midi"; split := "train" |} 120)
                      _) _).
  - apply Forall_forall. intros p Hp. apply repeat_spec in Hp. subst p.
    left. reflexivity.
  - vm_compute. reflexivity.
Defined.

End PreprocessMore.

Module PreprocessNames.

Import Preprocess.

Lemma last_piece_app (a b acc : string) :
  last_piece (a ++ b) acc = last_piece b (last_piece a acc).
Proof.
  revert acc. induction a as [|c a IH]; intros acc; [reflexivity|].
  cbn [String.append last_piece]. destruct (is_sep c); apply IH.
Qed.

Lemma last_piece_after_sep (a acc : string) :
  ends_with_sep a = true -> last_piece a acc = EmptyString.
Proof.
  revert acc. induction a as [|c a IH]; intros acc H; [discriminate|].
  cbn [last_piece]. destruct a as [|c' a'].
  - cbn [ends_with_sep] in H. rewrite H. reflexivity.
  - assert (H' : ends_with_sep (String c' a') = true) by exact H.
    destruct (is_sep c); apply IH; exact H'.
Qed.

(** The last component of the joined path is that of the second path. *)
Lemma last_piece_join (a b : string) :
  last_piece (path_join a b) EmptyString = last_piece b EmptyString.
Proof.
  unfold path_join. destruct b as [|c b].
  - destruct (String.eqb_spec a "") as [->|Ha]; [reflexivity|].
    cbn [orb]. destruct (ends_with_sep a) eqn:He.
    + rewrite last_piece_after_sep by exact He. reflexivity.
    + rewrite last_piece_app. reflexivity.
  - destruct (is_sep c) eqn:Hc; [reflexivity|].
    destruct (String.eqb_spec a "") as [->|Ha]; [reflexivity|].
    cbn [orb]. destruct (ends_with_sep a) eqn:He.
    + rewrite last_piece_app, (last_piece_after_sep a) by exact He. reflexivity.
    + rewrite last_piece_app. cbn [String.append last_piece].
      replace (is_sep "/") with true by reflexivity. reflexivity.
Qed.

(** X13.  The file a piece is written to is named by the last component of
    its [midi_filename] and placed by its split label alone: neither the
    root nor the folders in front of the file name matter.  So two pieces
    of one split whose file names agree, as in two year folders, are written
    to the same file, the later over the earlier. *)
Theorem X13_output_name_is_the_base_name :
  (forall maestro_root p,
      map fst (dump_of maestro_root p) =
      match split_dir (split p) with
      | Some d => [(d, (last_piece (midi_filename p) EmptyString ++ ".pickle")%string)]
      | None => []
      end)
  /\ (forall root root' p q,
         split p = split q ->
         last_piece (midi_filename p) EmptyString =
         last_piece (midi_filename q) EmptyString ->
         map fst (dump_of root p) = map fst (dump_of root' q)).
Proof.
  assert (H : forall maestro_root p,
    map fst (dump_of maestro_root p) =
    match split_dir (split p) with
    | Some d => [(d, (last_piece (midi_filename p) EmptyString ++ ".pickle")%string)]
    | None => []
    end).
  { intros maestro_root p. unfold dump_of.
    destruct (split_dir (split p)); [|reflexivity].
    cbn [map fst]. rewrite last_piece_join. reflexivity. }
  split; [exact H|].
  intros root root' p q Hs Hn. rewrite !H, Hs, Hn. reflexivity.
Qed.

Lemma X13_output_name_witness :
  map fst (dumps (snd (prep_maestro_midi "maestro"
    (Some [ {| midi_filename := "2004/a.midi"; split := "train" |};
            {| midi_filename := "2006/a.midi"; split := "train" |} ])))) =
  [(TrainDir, "a.midi.pickle"); (TrainDir, "a.midi.pickle")]
  /\ map fst (dump_of "maestro" {| midi_filename := "2004/a.midi"; split := "train" |}) =
     map fst (dump_of "/data/m/" {| midi_filename := "2006/a.midi"; split := "train" |}).
Proof.
  split; [vm_compute; reflexivity|].
  exact (proj2 X13_output_name_is_the_base_name "maestro" "/data/m/"
               {| midi_filename := "2004/a.midi"; split := "train" |}
               {| midi_filename := "2006/a.midi"; split := "train" |}
               eq_refl eq_refl).
Defined.



End PreprocessNames.

(** ** The names of the numbered snapshots *)

Module SnapshotNames.

Lemma uint_of_zeros (k : nat) (s : string) :
  NilEmpty.uint_of_string (zeros k ++ s) =
  option_map (Nat.iter k Decimal.D0) (NilEmpty.uint_of_string s).
Proof.
  induction k as [|k IH].
  - cbn. destruct (NilEmpty.uint_of_string s); reflexivity.
  - cbn [zeros String.append NilEmpty.uint_of_string]. rewrite IH.
    destruct (NilEmpty.uint_of_string s); reflexivity.
Qed.

Lemma of_uint_zeros (k : nat) (d : Decimal.uint) :
  Z.of_uint (Nat.iter k Decimal.D0 d) = Z.of_uint d.
Proof. induction k as [|k IH]; [reflexivity|]. cbn [Nat.iter]. exact IH. Qed.

Lemma nilzero_uint_nonempty (s : string) :
  s <> EmptyString -> NilZero.uint_of_string s = NilEmpty.uint_of_string s.
Proof. destruct s; [contradiction|reflexivity]. Qed.

Lemma zeros_app_nonempty (k : nat) (s : string) :
  s <> EmptyString -> (zeros k ++ s)%string <> EmptyString.
Proof. destruct k, s; cbn; congruence. Qed.

(** Padding with [zfill] does not change the integer a string denotes. *)
Lemma int_of_zfill (s : string) (w : Z) (d : Decimal.int) :
  NilZero.int_of_string s = Some d ->
  exists d', NilZero.int_of_string (zfill s w) = Some d'
             /\ Z.of_int d' = Z.of_int d.
Proof.
  destruct s as [|c rest]; [discriminate|].
  unfold zfill.
  set (k := Z.to_nat (w - Z.of_nat (String.length (String c rest)))).
  clearbody k. unfold NilZero.int_of_string at 1.
  destruct (Ascii.eqb_spec c "-") as [->|Hm].
  - rewrite orb_true_r. unfold NilZero.int_of_string.
    replace (Ascii.eqb "-" "-") with true by reflexivity.
    destruct rest as [|c' rest']; [discriminate|].
    rewrite (nilzero_uint_nonempty (String c' rest')) by discriminate.
    rewrite (nilzero_uint_nonempty (zeros k ++ String c' rest'))
      by (apply zeros_app_nonempty; discriminate).
    rewrite uint_of_zeros.
    destruct (NilEmpty.uint_of_string (String c' rest')) as [u|]; [|discriminate].
    cbn [option_map]. intros [= <-]. eexists. split; [reflexivity|].
    cbn [Z.of_int]. rewrite of_uint_zeros. reflexivity.
  - rewrite orb_false_r.
    destruct (Ascii.eqb_spec c "+") as [->|Hp].
    { cbn [NilZero.uint_of_string NilEmpty.uint_of_string].
      destruct (NilEmpty.uint_of_string rest); discriminate. }
    rewrite nilzero_uint_nonempty by discriminate.
    destruct (NilEmpty.uint_of_string (String c rest)) as [u|] eqn:Hu;
      [|discriminate].
    cbn [option_map]. intros [= <-].
    destruct k as [|k].
    + cbn [zeros String.append]. unfold NilZero.int_of_string.
      apply Ascii.eqb_neq in Hm. rewrite Hm.
      rewrite nilzero_uint_nonempty by discriminate. rewrite Hu.
      eexists. split; reflexivity.
    + unfold NilZero.int_of_string. cbn [zeros String.append].
      replace (Ascii.eqb "0" "-") with false by reflexivity.
      change (String "0" (zeros k ++ String c rest))
        with (zeros (S k) ++ String c rest)%string.
      rewrite nilzero_uint_nonempty by (apply zeros_app_nonempty; discriminate).
      rewrite uint_of_zeros, Hu. cbn [option_map].
      eexists. split; [reflexivity|].
      cbn [Z.of_int]. rewrite of_uint_zeros. reflexivity.
Qed.

Lemma int_of_py_str (n : Z) :
  exists d, NilZero.int_of_string (py_str n) = Some d /\ Z.of_int d = n.
Proof.
  unfold py_str.
  destruct (Z.to_int n) as [u|u] eqn:Hn.
  - destruct u as [|u|u|u|u|u|u|u|u|u|u];
      try (eexists; split; [apply NilZero.isi; discriminate|];
           rewrite <- Hn; apply DecimalZ.of_to).
    exists (Decimal.Pos Decimal.zero). split; [reflexivity|].
    rewrite <- (DecimalZ.of_to n), Hn. reflexivity.
  - destruct u as [|u|u|u|u|u|u|u|u|u|u];
      try (eexists; split; [apply NilZero.isi; discriminate|];
           rewrite <- Hn; apply DecimalZ.of_to).
    exists (Decimal.Neg (Decimal.D0 Decimal.Nil)). split; [reflexivity|].
    rewrite <- (DecimalZ.of_to n), Hn. reflexivity.
Qed.

Lemma padded_inj (w n m : Z) :
  zfill (py_str n) w = zfill (py_str m) w -> n = m.
Proof.
  intros H.
  destruct (int_of_py_str n) as (dn & Hn & <-).
  destruct (int_of_py_str m) as (dm & Hm & <-).
  destruct (int_of_zfill _ w _ Hn) as (dn' & Hn' & <-).
  destruct (int_of_zfill _ w _ Hm) as (dm' & Hm' & <-).
  rewrite H in Hn'. rewrite Hn' in Hm'. injection Hm' as ->. reflexivity.
Qed.

Lemma length_append (a b : string) :
  String.length (a ++ b) = (String.length a + String.length b)%nat.
Proof. induction a as [|c a IH]; [reflexivity|]. cbn. rewrite IH. reflexivity. Qed.

Lemma append_inj_l (a b c : string) : (a ++ c = b ++ c)%string -> a = b.
Proof.
  revert b. induction a as [|x a IH]; intros b H.
  - destruct b as [|y b]; [reflexivity|].
    apply (f_equal String.length) in H. rewrite !length_append in H.
    cbn in H. lia.
  - destruct b as [|y b].
    + apply (f_equal String.length) in H. rewrite !length_append in H.
      cbn in H. lia.
    + cbn in H. injection H as -> H. f_equal. apply IH. exact H.
Qed.

End SnapshotNames.

(** X15.  The name of a numbered snapshot determines its epoch, whatever
    the width the number is padded to: two different epochs, of one run or
    of two, are never saved under the same name. *)
Theorem X15_snapshot_names_differ (env : Env) (n m : Z) :
  n <> m -> epoch_file_name env n <> epoch_file_name env m.
Proof.
  unfold epoch_file_name. intros Hnm H. apply Hnm.
  cbn [String.append] in H. injection H as H.
  apply SnapshotNames.append_inj_l in H.
  apply (SnapshotNames.padded_inj _ _ _ H).
Qed.

Lemma X15_snapshot_names_witness :
  epoch_file_name Example.env (-2) <> epoch_file_name Example.env 2.
Proof.
  exact (X15_snapshot_names_differ Example.env (-2) 2
           (Z.lt_neq (-2) 2 eq_refl)).
Defined.

(** ** The numbered snapshots in the folder *)

Lemma epoch_body_epoch_weights (args : Args) (env : Env) (epoch : Z) (st : State) :
  epoch_weights (files (snd (epoch_body args env epoch st))) =
  if weight_modulus args =? 0 then epoch_weights (files st)
  else if snapshot_due args epoch
       then (epoch_file_name env (epoch + 1), {| taken_at := epoch |})
            :: epoch_weights (files st)
       else epoch_weights (files st).
Proof.
  rewrite epoch_body_unfold. simpl.
  destruct (weight_modulus args =? 0); simpl.
  - apply after_tracking_epoch_weights.
  - destruct (snapshot_due args epoch); simpl;
      rewrite after_tracking_epoch_weights; reflexivity.
Qed.

Lemma for_each_epoch_weights (args : Args) (env : Env) (l : list Z) (st : State) :
  epoch_weights (files (snd (for_each l (epoch_body args env) st))) =
  if weight_modulus args =? 0 then epoch_weights (files st)
  else rev (map (fun e => (epoch_file_name env (e + 1), {| taken_at := e |}))
                (filter (snapshot_due args) l))
       ++ epoch_weights (files st).
Proof.
  revert st. induction l as [|e l IH]; intros st.
  - simpl. destruct (weight_modulus args =? 0); reflexivity.
  - rewrite for_each_cons. destruct (weight_modulus args =? 0) eqn:Hm.
    + rewrite epoch_body_epoch_weights, Hm. reflexivity.
    + rewrite IH, ?Hm, epoch_body_epoch_weights, Hm. cbn [filter].
      destruct (snapshot_due args e); [|reflexivity].
      cbn [map rev]. rewrite <- app_assoc. reflexivity.
Qed.

(** X16.  When a run ends normally, the numbered snapshots in the folder
    are those it held before, then one per iteration whose epoch number is
    a multiple of the period, each under the name of its epoch and holding
    the weights as they were in that iteration. *)
Theorem X16_snapshots_in_the_folder (args : Args) (env : Env) (f : Files) :
  fst (run args env f) = Done tt ->
  epoch_weights (files (snd (run args env f))) =
  rev (map (fun e => (epoch_file_name env (e + 1), {| taken_at := e |}))
           (filter (fun e => (e + 1) mod weight_modulus args =? 0)
                   (loop_epochs args)))
  ++ epoch_weights f.
Proof.
  intros Hd. destruct (run_completed _ _ _ Hd) as [Hr Hm]. unfold run.
  destruct (main_looped args env (start_state f) Hr) as (_ & Hf & _).
  rewrite Hf, for_each_epoch_weights.
  destruct (main_setup_files args env (start_state f))
    as (_ & _ & _ & _ & _ & _ & _ & _ & He).
  rewrite He. cbn [files start_state].
  destruct Hm as [Hnil|Hm].
  - rewrite Hnil. destruct (weight_modulus args =? 0); reflexivity.
  - apply Z.eqb_neq in Hm. rewrite Hm. reflexivity.
Qed.

Lemma X16_snapshots_witness :
  epoch_weights
    (files (snd (run Example.resumed_args Example.env Example.prior_files))) =
  [("epoch_0004.pickle", {| taken_at := 3 |});
   ("epoch_0002.pickle", {| taken_at := 1 |});
   ("epoch_0000.pickle", {| taken_at := -1 |})].
Proof.
  exact (X16_snapshots_in_the_folder Example.resumed_args Example.env
                                     Example.prior_files eq_refl).
Defined.
